(** * cron-sentry: the command runner and its failure reports

    A shallow embedding of [cron_sentry/runner.py] and the properties of
    its tail extraction, of the reporting decision, of the metadata sent
    with a report and of the echo to the standard streams.

    Conventions of the embedding:
    - a Python 3 [str] is the list of its code points ([pystr]), so that
      [len] is [length]; [bytes] are [list byte];
    - a Python [int] is a [Z];
    - a [dict] is a [gmap] from [pystr]; dictionaries live in a heap and
      are handled through their location, as [copy] and [update] are only
      distinguishable on shared objects;
    - code that may raise runs in a state-and-exception monad [M]; the
      state is kept when an exception is raised, as in Python;
    - what the program does to the outside (the Sentry client, the two
      standard streams) is appended to a log of events. *)

From Stdlib Require Import ZArith Lia.
From Stdlib Require Import Strings.Byte.
From stdpp Require Import gmap strings list fin_maps pretty.

Local Open Scope Z_scope.

(** ** Text and bytes *)

Abbreviation pystr := (list N).
Abbreviation pybytes := (list byte).

(** A literal of the source, read as a Python [str]. *)
Definition py (s : string) : pystr :=
  Ascii.N_of_ascii <$> String.list_ascii_of_string s.

(** [len(x)] as the Python integer it is. *)
Definition len {A} (l : list A) : Z := Z.of_nat (length l).

(** [s.startswith(prefix)] *)
Fixpoint startswith (s prefix : pystr) {struct prefix} : bool :=
  match prefix, s with
  | [], _ => true
  | _ :: _, [] => false
  | p :: prefix', c :: s' => if decide (c = p) then startswith s' prefix' else false
  end.

(** ** Exceptions and the monad *)

(** The [OSError] that [subprocess.call] raises when [exec] fails: it is
    built from the [errno] of the child, its [strerror] and the name of
    the file that could not be executed. *)
Record OSError := mkOSError {
  errno : Z;
  strerror : pystr;
  filename : option pystr
}.

Inductive exn :=
| UnicodeDecodeError
| InvalidSeek
| CommandNotFoundError (e : OSError)
| OtherError (e : OSError)
| DanglingReference
| SystemExit (code : Z).

Inductive result (A : Type) :=
| Ok (a : A)
| Raise (e : exn).
Arguments Ok {A} a.
Arguments Raise {A} e.

Definition M (S A : Type) : Type := S -> result A * S.

Definition ret {S A} (a : A) : M S A := fun s => (Ok a, s).

Definition raise {S A} (e : exn) : M S A := fun s => (Raise e, s).

Definition bind {S A B} (c : M S A) (k : A -> M S B) : M S B :=
  fun s =>
    match c s with
    | (Ok a, s') => k a s'
    | (Raise e, s') => (Raise e, s')
    end.

Notation "'let*' x := c 'in' k" := (bind c (fun x => k))
  (at level 10, x name, c at level 100, k at level 200).

(** A pure computation that may raise, run inside [M]. *)
Definition lift {S A} (r : result A) : M S A := fun s => (r, s).

(** ** UTF-8 decoding, as [bytes.decode('utf-8')] does it

    The decoder is the strict one: a lead byte must be followed by the
    continuation bytes it announces, overlong forms, surrogates and code
    points above U+10FFFF are refused.  Any refusal is a
    [UnicodeDecodeError]. *)

Definition is_cont (c : N) : bool := ((0x80 <=? c) && (c <=? 0xBF))%N.

Definition in_range (lo hi c : N) : bool := ((lo <=? c) && (c <=? hi))%N.

(** The second byte of a three-byte form: [E0] excludes overlong forms,
    [ED] excludes the surrogates. *)
Definition second_of_3 (c0 c1 : N) : bool :=
  if (c0 =? 0xE0)%N then in_range 0xA0 0xBF c1
  else if (c0 =? 0xED)%N then in_range 0x80 0x9F c1
  else is_cont c1.

(** The second byte of a four-byte form: [F0] excludes overlong forms,
    [F4] stops at U+10FFFF. *)
Definition second_of_4 (c0 c1 : N) : bool :=
  if (c0 =? 0xF0)%N then in_range 0x90 0xBF c1
  else if (c0 =? 0xF4)%N then in_range 0x80 0x8F c1
  else is_cont c1.

Definition low6 (c : N) : N := N.land c 0x3F.

Fixpoint utf8_decode (bs : pybytes) : option pystr :=
  match bs with
  | [] => Some []
  | b0 :: r0 =>
    let c0 := Byte.to_N b0 in
    if (c0 <? 0x80)%N then cons c0 <$> utf8_decode r0
    else match r0 with
    | [] => None
    | b1 :: r1 =>
      let c1 := Byte.to_N b1 in
      if in_range 0xC2 0xDF c0 then
        if is_cont c1
        then cons (N.lor (N.shiftl (N.land c0 0x1F) 6) (low6 c1)) <$> utf8_decode r1
        else None
      else match r1 with
      | [] => None
      | b2 :: r2 =>
        let c2 := Byte.to_N b2 in
        if in_range 0xE0 0xEF c0 then
          if second_of_3 c0 c1 && is_cont c2
          then cons (N.lor (N.shiftl (N.land c0 0x0F) 12)
                       (N.lor (N.shiftl (low6 c1) 6) (low6 c2)))
                 <$> utf8_decode r2
          else None
        else match r2 with
        | [] => None
        | b3 :: r3 =>
          let c3 := Byte.to_N b3 in
          if in_range 0xF0 0xF4 c0 && second_of_4 c0 c1 && is_cont c2 && is_cont c3
          then cons (N.lor (N.shiftl (N.land c0 0x07) 18)
                       (N.lor (N.shiftl (low6 c1) 12)
                          (N.lor (N.shiftl (low6 c2) 6) (low6 c3))))
                 <$> utf8_decode r3
          else None
        end
      end
    end
  end.

(** [b.decode('utf-8')] *)
Definition decode (b : pybytes) : result pystr :=
  match utf8_decode b with
  | Some s => Ok s
  | None => Raise UnicodeDecodeError
  end.

(** ** Temporary files

    A binary file opened for reading and writing: its bytes and the
    position of the next read. *)

Record file := mkfile {
  content : pybytes;
  pos : Z
}.

Inductive whence := SEEK_SET | SEEK_END.

(** [buf.seek(offset, whence)]: the new position is returned; a position
    before the start of the file is refused, one past the end is not. *)
Definition seek (offset : Z) (w : whence) : M file Z :=
  fun f =>
    let target :=
      match w with
      | SEEK_SET => offset
      | SEEK_END => len (content f) + offset
      end in
    if target <? 0 then (Raise InvalidSeek, f)
    else (Ok target, mkfile (content f) target).

(** [buf.tell()] *)
Definition tell : M file Z := fun f => (Ok (pos f), f).

(** [buf.read()]: everything from the position to the end of the file,
    nothing when the position is at or past the end. *)
Definition read : M file pybytes :=
  fun f =>
    (Ok (drop (Z.to_nat (pos f)) (content f)),
     mkfile (content f) (Z.max (pos f) (len (content f)))).

(** ** Values, dictionaries and the outside world *)

Inductive pyval :=
| VStr (s : pystr)
| VInt (n : Z)
| VList (l : list pystr).

Abbreviation dict := (gmap pystr pyval).

(** The client of the Sentry library, as far as the runner configures it. *)
Record Client := mkClient {
  client_dsn : pystr;
  client_string_max_length : Z
}.

Inductive event :=
| ClientCreated (c : Client)
| CaptureMessage (c : Client) (message : pystr) (data extra : dict) (time_spent : Z)
| StdoutWrite (s : pystr)
| StderrWrite (s : pystr)
| PrintUsage.

(** Dictionaries are objects: a variable holds the location of one in
    the heap.  The log lists the events, oldest first. *)
Record world := mkworld {
  heap : list dict;
  events : list event
}.

Definition emit (e : event) : M world unit :=
  fun w => (Ok tt, mkworld (heap w) (events w ++ [e])).

(** A dict that the code builds and keeps: a new object. *)
Definition dict_new (d : dict) : M world nat :=
  fun w => (Ok (length (heap w)), mkworld (heap w ++ [d]) (events w)).

(** [d.copy()]: a new object with the entries of [d]. *)
Definition dict_copy (l : nat) : M world nat :=
  fun w =>
    match heap w !! l with
    | Some d => (Ok (length (heap w)), mkworld (heap w ++ [d]) (events w))
    | None => (Raise DanglingReference, w)
    end.

(** [d.update(other)] for a display [other]: the object at [l] is
    changed in place; the entries of [other] replace those of [d] with
    the same key. *)
Definition dict_update (l : nat) (other : dict) : M world unit :=
  fun w =>
    match heap w !! l with
    | Some d => (Ok tt, mkworld (<[l := other ∪ d]> (heap w)) (events w))
    | None => (Raise DanglingReference, w)
    end.

(** Reading an object, for the call that hands it to the client. *)
Definition dict_get (l : nat) : M world dict :=
  fun w =>
    match heap w !! l with
    | Some d => (Ok d, w)
    | None => (Raise DanglingReference, w)
    end.

(** A file that only this computation holds: it starts as [f] and is
    dropped afterwards. *)
Definition on_file {A} (f : file) (c : M file A) : M world A :=
  fun w => (fst (c f), w).

(** What [subprocess.call] does with a command, seen from the runner:
    the child ran, wrote [out] and [err] to the files it was given and
    exited with [status]; or the call raised. *)
Inductive call_outcome :=
| Exited (status : Z) (out err : pybytes)
| Raised (e : exn).

(** The temporary file after the child wrote [b] to it. *)
Definition written (b : pybytes) : file := mkfile b (len b).

(** The text of a str without quotes, backslashes or unprintable code
    points, as [repr] shows it. *)
Definition repr_plain (s : pystr) : pystr := [39%N] ++ s ++ [39%N].

(** The white space of ASCII, which [str.isspace] accepts. *)
Definition isspace_ascii (c : N) : bool :=
  (in_range 9 13 c || in_range 28 32 c)%N.

(** ** The runner *)

Definition DEFAULT_STRING_MAX_LENGTH : Z := 4096.

Definition env_var_prefix : pystr := py "CRON_SENTRY_EXTRA_".

(** The loop of [_extra_from_env] over [env.items()]. *)
Fixpoint extra_loop (items : list (pystr * pystr)) (res : gmap pystr pystr)
  : gmap pystr pystr :=
  match items with
  | [] => res
  | (k, v) :: items' =>
    extra_loop items'
      (if startswith k env_var_prefix then
         let extra_key := drop (length env_var_prefix) k in
         match extra_key with
         | [] => res
         | _ :: _ => <[extra_key := v]> res
         end
       else res)
  end.

Definition _extra_from_env (env : gmap pystr pystr) : gmap pystr pystr :=
  extra_loop (map_to_list env) ∅.

Record CommandReporter := mkCommandReporter {
  dsn : option pystr;
  command : list pystr;
  string_max_length : Z;
  quiet : bool;
  extra : nat
}.

(** [CommandReporter.__init__]: the reporter keeps the dict it is given,
    not a copy of it. *)
Definition CommandReporter_init (cmd : list pystr) (dsn : option pystr)
    (string_max_length : Z) (quiet : bool) (extra : option nat)
  : M world CommandReporter :=
  let* empty := dict_new ∅ in
  ret (mkCommandReporter dsn cmd string_max_length quiet
         (match extra with
          | Some e => e
          | None => empty
          end)).

Definition _get_last_lines (self : CommandReporter) : M file pystr :=
  let* _ := seek 0 SEEK_END in
  let* file_size := tell in
  if file_size <? string_max_length self then
    let* _ := seek 0 SEEK_SET in
    let* b := read in
    lift (decode b)
  else
    let* _ := seek (- (string_max_length self - 3)) SEEK_END in
    let* b := read in
    let* s := lift (decode b) in
    ret (py "..." ++ s).

(** The bytes that the truncating branch reads: the last
    [string_max_length - 3] of them. *)
Definition tail_bytes (limit : Z) (b : pybytes) : pybytes :=
  drop (Z.to_nat (len b - (limit - 3))) b.

(** [bool(dsn)]: a DSN that is given and not the empty str. *)
Definition dsn_nonempty (d : option pystr) : bool :=
  match d with
  | Some (_ :: _) => true
  | _ => false
  end.

Definition is_capture (e : event) : bool :=
  match e with
  | CaptureMessage _ _ _ _ _ => true
  | _ => false
  end.

Definition is_client (e : event) : bool :=
  match e with
  | ClientCreated _ => true
  | _ => false
  end.

Definition is_write (e : event) : bool :=
  match e with
  | StdoutWrite _ | StderrWrite _ => true
  | _ => false
  end.

Definition reserved_keys : list pystr :=
  [py "command"; py "exit_status"; py "last_lines_stdout"; py "last_lines_stderr"].

(** The options that [parser.parse_args] returns. *)
Record options := mkoptions {
  opt_dsn : option pystr;
  opt_string_max_length : Z;
  opt_quiet : bool;
  opt_cmd : list pystr
}.

(** The two configuration files: for each, the text that reading it
    gives when it exists. *)
Record conf_files := mkconf_files {
  home_conf_file : option pystr;
  system_conf_file : option pystr
}.

(** ** Sample data *)

Definition sample_world : world :=
  mkworld [ {[ py "host" := VStr (py "db1") ]} ] [].

Definition sample_reporter : CommandReporter :=
  mkCommandReporter (Some (py "http://key@sentry.example/1"))
    [py "backup"; py "--all"] 10 false 0.

Definition empty_dsn_reporter : CommandReporter :=
  mkCommandReporter (Some []) [py "false"] DEFAULT_STRING_MAX_LENGTH false 0.

Definition limit_1_reporter : CommandReporter :=
  mkCommandReporter None [py "echo"; py "a"] 1 true 0.

Definition limit_2_reporter : CommandReporter :=
  mkCommandReporter None [py "echo"; py "hello"] 2 true 0.

Definition no_such_file : OSError :=
  mkOSError 2 (py "No such file or directory") (Some (py "nope")).

Definition permission_denied : OSError :=
  mkOSError 13 (py "Permission denied") (Some (py "backup")).

Definition sample_options : options :=
  mkoptions (Some (py "http://key@sentry.example/1")) 10 false
    [py "--"; py "backup"; py "--all"].

Definition sample_conf_files : conf_files :=
  mkconf_files None (Some (py "http://key@sentry.example/2" ++ [10%N])).

Definition sample_environ : gmap pystr pystr :=
  <[py "CRON_SENTRY_EXTRA_host" := py "db1"]> (<[py "HOME" := py "/root"]> ∅).

Section Runtime.

(** [repr] of a str and the code points that [str.isspace] accepts are
    left to the interpreter. *)
Variable repr : pystr -> pystr.
Variable isspace : N -> bool.

(** [s.rstrip()] *)
Fixpoint rstrip (s : pystr) : pystr :=
  match s with
  | [] => []
  | c :: s' =>
    match rstrip s' with
    | [] => if isspace c then [] else [c]
    | t => c :: t
    end
  end.

(** The loop of [update_dsn] over [conf_precedence]. *)
Fixpoint update_dsn_loop (conf_precedence : list (option pystr)) (opts : options)
  : options :=
  match conf_precedence with
  | [] => opts
  | Some text :: _ =>
    mkoptions (Some (rstrip text)) (opt_string_max_length opts) (opt_quiet opts)
      (opt_cmd opts)
  | None :: conf_precedence' => update_dsn_loop conf_precedence' opts
  end.

Definition update_dsn (fs : conf_files) (opts : options) : options :=
  update_dsn_loop [home_conf_file fs; system_conf_file fs] opts.

(** [str] of a list of str. *)
Fixpoint join_repr (l : list pystr) : pystr :=
  match l with
  | [] => []
  | [x] => repr x
  | x :: l' => repr x ++ py ", " ++ join_repr l'
  end.

Definition str_list (l : list pystr) : pystr := py "[" ++ join_repr l ++ py "]".

(** [str] of the [OSError] of a failed [exec]. *)
Definition str_OSError (e : OSError) : pystr :=
  py "[Errno " ++ py (pretty (errno e)) ++ py "] " ++ strerror e ++
  match filename e with
  | Some f => py ": " ++ repr f
  | None => []
  end.

(** The message of [report_fail]: the command between double quotes. *)
Definition fail_message (self : CommandReporter) : pystr :=
  py "Command " ++ [34%N] ++ str_list (command self) ++ [34%N] ++ py " failed".

(** The four entries that [report_fail] sets in the copy. *)
Definition reserved (self : CommandReporter) (exit_status : Z)
    (last_lines_stdout last_lines_stderr : pystr) : dict :=
  <[py "command" := VList (command self)]>
  (<[py "exit_status" := VInt exit_status]>
  (<[py "last_lines_stdout" := VStr last_lines_stdout]>
  (<[py "last_lines_stderr" := VStr last_lines_stderr]> ∅))).

Definition report_fail (self : CommandReporter) (exit_status : Z)
    (last_lines_stdout last_lines_stderr : pystr) (elapsed : Z) : M world unit :=
  match dsn self with
  | None => ret tt
  | Some d =>
    let message := fail_message self in
    let client := mkClient d (string_max_length self) in
    let* _ := emit (ClientCreated client) in
    let* extra := dict_copy (extra self) in
    let* _ := dict_update extra
                (reserved self exit_status last_lines_stdout last_lines_stderr) in
    let* sent := dict_get extra in
    emit (CaptureMessage client message {[ py "logger" := VStr (py "cron") ]}
            sent elapsed)
  end.

(** The [try] statement of [CommandReporter.run]: the exit status and
    the two tails. *)
Definition run_call (self : CommandReporter) (outcome : call_outcome)
  : M world (Z * pystr * pystr) :=
  match outcome with
  | Raised (CommandNotFoundError exc) => ret (127, [], str_OSError exc)
  | Raised e => raise e
  | Exited exit_status out err =>
    let* last_lines_stdout := on_file (written out) (_get_last_lines self) in
    let* last_lines_stderr := on_file (written err) (_get_last_lines self) in
    ret (exit_status, last_lines_stdout, last_lines_stderr)
  end.

(** [CommandReporter.run].  [outcome] is what the call of the command
    does, [elapsed] the milliseconds between the two readings of the
    clock. *)
Definition CommandReporter_run (self : CommandReporter) (outcome : call_outcome)
    (elapsed : Z) : M world Z :=
  let* r := run_call self outcome in
  let '(exit_status, last_lines_stdout, last_lines_stderr) := r in
  let* _ :=
    if decide (exit_status ≠ 0)
    then report_fail self exit_status last_lines_stdout last_lines_stderr elapsed
    else ret tt in
  let* _ :=
    if quiet self then ret tt
    else
      let* _ := emit (StdoutWrite last_lines_stdout) in
      emit (StderrWrite last_lines_stderr) in
  ret exit_status.

(** [run], once the arguments are parsed.  [sys.exit] raises
    [SystemExit]. *)
Definition run (parsed : options) (fs : conf_files) (environ : gmap pystr pystr)
    (outcome : call_outcome) (elapsed : Z) : M world unit :=
  let opts := if dsn_nonempty (opt_dsn parsed) then parsed
              else update_dsn fs parsed in
  match opt_cmd opts with
  | c0 :: rest =>
    let cmd := if decide (c0 = py "--") then rest else opt_cmd opts in
    let* env_extra := dict_new (VStr <$> _extra_from_env environ) in
    let* runner := CommandReporter_init cmd (opt_dsn opts)
                     (opt_string_max_length opts) (opt_quiet opts)
                     (Some env_extra) in
    let* exit_status := CommandReporter_run runner outcome elapsed in
    raise (SystemExit exit_status)
  | [] =>
    let* _ := emit (StderrWrite (py "ERROR: Missing command parameter!" ++ [10%N])) in
    let* _ := emit PrintUsage in
    raise (SystemExit 1)
  end.

(** The world after a report has been sent: one more object, the copy
    with the reserved keys, and two more events. *)
Definition reported (self : CommandReporter) (d : pystr) (base : dict)
    (exit_status : Z) (so se : pystr) (elapsed : Z) (w : world) : world :=
  let c := mkClient d (string_max_length self) in
  let sent := reserved self exit_status so se ∪ base in
  mkworld (heap w ++ [sent])
    (events w ++
     [ClientCreated c;
      CaptureMessage c (fail_message self) {[ py "logger" := VStr (py "cron") ]}
        sent elapsed]).

(** What a run that extracted both tails adds to the log: the report,
    if any, then the echo, if any. *)
Definition report_events (self : CommandReporter) (base : dict)
    (exit_status : Z) (so se : pystr) (elapsed : Z) : list event :=
  match dsn self with
  | Some d =>
    if decide (exit_status ≠ 0) then
      let c := mkClient d (string_max_length self) in
      [ClientCreated c;
       CaptureMessage c (fail_message self) {[ py "logger" := VStr (py "cron") ]}
         (reserved self exit_status so se ∪ base) elapsed]
    else []
  | None => []
  end.

Definition echo_events (self : CommandReporter) (so se : pystr) : list event :=
  if quiet self then [] else [StdoutWrite so; StderrWrite se].

(** Bytes that are ASCII, and the text they encode. *)
Definition ascii_bytes (b : pybytes) : Prop :=
  Forall (fun x => (Byte.to_N x < 0x80)%N) b.

Definition ascii_text (b : pybytes) : pystr := Byte.to_N <$> b.

(** [opts] with another command, and with another DSN. *)
Definition with_cmd (opts : options) (cmd : list pystr) : options :=
  mkoptions (opt_dsn opts) (opt_string_max_length opts) (opt_quiet opts) cmd.

Definition with_dsn (opts : options) (d : option pystr) : options :=
  mkoptions d (opt_string_max_length opts) (opt_quiet opts) (opt_cmd opts).

(** ** The decoder *)

Example utf8_ascii : utf8_decode ["a"; "b"]%byte = Some (py "ab").
Proof. reflexivity. Qed.

Example utf8_euro : utf8_decode [xe2; x82; xac]%byte = Some [0x20AC%N].
Proof. reflexivity. Qed.

Example utf8_cut : utf8_decode [x82; xac]%byte = None.
Proof. reflexivity. Qed.

Example utf8_surrogate : utf8_decode [xed; xa0; x80]%byte = None.
Proof. reflexivity. Qed.

Lemma fmap_cons_length (c : N) (o : option pystr) (s : pystr) (n : nat) :
  cons c <$> o = Some s ->
  (forall t, o = Some t -> (length t <= n)%nat) ->
  (length s <= S n)%nat.
Proof.
  destruct o as [t|]; simpl; intros Heq Hle; [|discriminate].
  injection Heq as <-. simpl. specialize (Hle t eq_refl). lia.
Qed.

(** Decoding never yields more code points than there are bytes. *)
Lemma utf8_decode_length_aux (n : nat) :
  forall bs s, (length bs <= n)%nat -> utf8_decode bs = Some s ->
               (length s <= length bs)%nat.
Proof.
  induction n as [|n IH]; intros bs s Hn.
  - destruct bs; simpl in Hn; [|lia]. simpl. intros [= <-]. simpl. lia.
  - destruct bs as [|b0 r0]; [simpl; intros [= <-]; simpl; lia|].
    simpl in Hn. cbn [utf8_decode].
    destruct (_ <? _)%N.
    { intros H. cbn [length]. eapply fmap_cons_length; [exact H|].
      intros t Ht. apply IH in Ht; lia. }
    destruct r0 as [|b1 r1]; [discriminate|]. simpl in Hn.
    destruct (in_range 194 223 _).
    { destruct (is_cont _); [|discriminate]. intros H. cbn [length].
      apply Nat.le_le_succ_r. eapply fmap_cons_length; [exact H|].
      intros t Ht. apply IH in Ht; lia. }
    destruct r1 as [|b2 r2]; [discriminate|]. simpl in Hn.
    destruct (in_range 224 239 _).
    { destruct (_ && _); [|discriminate]. intros H. cbn [length].
      do 2 apply Nat.le_le_succ_r. eapply fmap_cons_length; [exact H|].
      intros t Ht. apply IH in Ht; lia. }
    destruct r2 as [|b3 r3]; [discriminate|]. simpl in Hn.
    destruct (_ && _); [|discriminate]. intros H. cbn [length].
    do 3 apply Nat.le_le_succ_r. eapply fmap_cons_length; [exact H|].
    intros t Ht. apply IH in Ht; lia.
Qed.

Lemma utf8_decode_length (bs : pybytes) (s : pystr) :
  utf8_decode bs = Some s -> (length s <= length bs)%nat.
Proof. apply (utf8_decode_length_aux (length bs)). lia. Qed.

Lemma decode_len (b : pybytes) (s : pystr) : decode b = Ok s -> len s <= len b.
Proof.
  unfold decode, len. destruct (utf8_decode b) eqn:E; [|discriminate].
  intros [= <-]. apply utf8_decode_length in E. lia.
Qed.

(** ** The tail extractor *)

Lemma tail_bytes_len (limit : Z) (b : pybytes) :
  3 <= limit <= len b -> len (tail_bytes limit b) = limit - 3.
Proof.
  unfold tail_bytes, len. intros H. rewrite length_drop. lia.
Qed.

Lemma tail_bytes_nil (limit : Z) (b : pybytes) :
  limit <= 3 -> tail_bytes limit b = [].
Proof.
  unfold tail_bytes, len. intros H. apply drop_ge. lia.
Qed.

(** What [_get_last_lines] returns, whatever the position of the file. *)
Lemma get_last_lines_fst (self : CommandReporter) (f : file) :
  fst (_get_last_lines self f) =
  if len (content f) <? string_max_length self
  then decode (content f)
  else match decode (tail_bytes (string_max_length self) (content f)) with
       | Ok s => Ok (py "..." ++ s)
       | Raise e => Raise e
       end.
Proof.
  unfold _get_last_lines, bind, seek, tell, read, lift, ret. cbn [content pos].
  replace (len (content f) + 0) with (len (content f)) by lia.
  assert (Hlen : (len (content f) <? 0) = false)
    by (apply Z.ltb_ge; unfold len; lia).
  rewrite Hlen. cbn [fst snd content pos].
  destruct (len (content f) <? string_max_length self) eqn:Hlt.
  - change (0 <? 0) with false. cbn [fst snd content pos].
    change (drop (Z.to_nat 0) (content f)) with (content f).
    destruct (decode (content f)); reflexivity.
  - apply Z.ltb_ge in Hlt.
    assert (Hpos : (len (content f) + - (string_max_length self - 3) <? 0) = false)
      by (apply Z.ltb_ge; lia).
    cbn [content]. rewrite Hpos. cbn [fst snd content pos].
    unfold tail_bytes.
    replace (len (content f) + - (string_max_length self - 3))
      with (len (content f) - (string_max_length self - 3)) by lia.
    destruct (decode _); reflexivity.
Qed.

Lemma startswith_app (p t : pystr) : startswith (p ++ t) p = true.
Proof.
  induction p as [|c p IH]; [reflexivity|]. simpl.
  destruct (decide (c = c)); [exact IH|congruence].
Qed.

Lemma startswith_drop (s p : pystr) :
  startswith s p = true -> s = p ++ drop (length p) s.
Proof.
  revert s. induction p as [|c p IH]; intros s; [reflexivity|].
  destruct s as [|c' s]; simpl; [discriminate|].
  destruct (decide (c' = c)) as [->|]; [|discriminate].
  intros H. f_equal. apply IH, H.
Qed.

(** C2, as amended: a store shorter than the limit is returned whole,
    decoded, with nothing put before it; a store at least as long as
    the limit gives ["..."] followed by the decoded last [limit - 3]
    bytes, and this is at most [limit] code points when the limit is at
    least 3.  In both cases a text is returned exactly when the bytes
    read are UTF-8, and [UnicodeDecodeError] is raised otherwise. *)
Theorem get_last_lines_bounded (self : CommandReporter) (f : file) :
  (len (content f) < string_max_length self ->
   fst (_get_last_lines self f) = decode (content f)) /\
  (string_max_length self <= len (content f) ->
   fst (_get_last_lines self f) =
     match decode (tail_bytes (string_max_length self) (content f)) with
     | Ok s => Ok (py "..." ++ s)
     | Raise e => Raise e
     end /\
   forall text, fst (_get_last_lines self f) = Ok text ->
     startswith text (py "...") = true /\
     (3 <= string_max_length self -> len text <= string_max_length self)).
Proof.
  rewrite get_last_lines_fst. split.
  - intros Hlt. apply Z.ltb_lt in Hlt. rewrite Hlt. reflexivity.
  - intros Hge. pose proof Hge as Hb. apply Z.ltb_ge in Hb. rewrite Hb.
    split; [reflexivity|]. intros text.
    destruct (decode _) as [s|e] eqn:Hdec; [|discriminate].
    intros Heq. assert (text = py "..." ++ s) as -> by congruence.
    split; [apply startswith_app|]. intros H3.
    apply decode_len in Hdec. rewrite tail_bytes_len in Hdec by lia.
    unfold len in *. rewrite length_app. simpl. lia.
Qed.

(** C8: with a limit of 1, 2 or 3 and a store at least as long as the
    limit, no byte of the store is read and the text returned is ["..."];
    it is longer than a limit below 3. *)
Theorem get_last_lines_small_limit (self : CommandReporter) (f : file) :
  1 <= string_max_length self <= 3 ->
  string_max_length self <= len (content f) ->
  tail_bytes (string_max_length self) (content f) = [] /\
  fst (_get_last_lines self f) = Ok (py "...") /\
  (string_max_length self < 3 -> string_max_length self < len (py "...")).
Proof.
  intros HL HS. rewrite get_last_lines_fst.
  apply Z.ltb_ge in HS. rewrite HS.
  rewrite tail_bytes_nil by lia.
  split; [reflexivity|]. split; [reflexivity|].
  intros Hlt. change (len (py "...")) with 3. exact Hlt.
Qed.

(** ** Reporting *)

Lemma lookup_snoc {A} (h : list A) (x : A) : (h ++ [x]) !! length h = Some x.
Proof. rewrite lookup_app_r by lia. rewrite Nat.sub_diag. reflexivity. Qed.

Lemma insert_snoc {A} (h : list A) (x y : A) :
  <[length h := y]> (h ++ [x]) = h ++ [y].
Proof.
  rewrite insert_app_r_alt by lia. rewrite Nat.sub_diag. reflexivity.
Qed.

Lemma report_fail_no_dsn self exit_status so se elapsed w :
  dsn self = None ->
  report_fail self exit_status so se elapsed w = (Ok tt, w).
Proof. unfold report_fail. intros ->. reflexivity. Qed.

Lemma report_fail_dsn self exit_status so se elapsed w d base :
  dsn self = Some d ->
  heap w !! extra self = Some base ->
  report_fail self exit_status so se elapsed w =
  (Ok tt, reported self d base exit_status so se elapsed w).
Proof.
  unfold report_fail, reported. intros -> Hbase.
  unfold bind, emit, dict_copy, dict_update, dict_get. cbn [heap events].
  rewrite Hbase. cbn [heap events]. rewrite lookup_snoc. cbn [heap events].
  rewrite insert_snoc, lookup_snoc. cbn [heap events].
  rewrite <- app_assoc. reflexivity.
Qed.

Lemma report_fail_dangling self exit_status so se elapsed w d :
  dsn self = Some d ->
  heap w !! extra self = None ->
  report_fail self exit_status so se elapsed w =
  (Raise DanglingReference,
   mkworld (heap w) (events w ++ [ClientCreated (mkClient d (string_max_length self))])).
Proof.
  unfold report_fail. intros -> Hnone.
  unfold bind, emit, dict_copy. cbn [heap events]. rewrite Hnone. reflexivity.
Qed.

Lemma run_call_snd self outcome w : snd (run_call self outcome w) = w.
Proof.
  unfold run_call. destruct outcome as [st out err|e].
  - unfold bind, on_file, ret.
    destruct (fst (_get_last_lines self (written out))); [|reflexivity].
    destruct (fst (_get_last_lines self (written err))); reflexivity.
  - destruct e; reflexivity.
Qed.

(** [CommandReporter.run], step by step. *)
Lemma run_unfold self outcome elapsed w :
  CommandReporter_run self outcome elapsed w =
  match fst (run_call self outcome w) with
  | Raise e => (Raise e, w)
  | Ok (exit_status, so, se) =>
    match (if decide (exit_status ≠ 0)
           then report_fail self exit_status so se elapsed w
           else (Ok tt, w)) with
    | (Raise e, w1) => (Raise e, w1)
    | (Ok _, w1) =>
      (Ok exit_status,
       if quiet self then w1
       else mkworld (heap w1) (events w1 ++ [StdoutWrite so; StderrWrite se]))
    end
  end.
Proof.
  unfold CommandReporter_run, bind at 1.
  pose proof (run_call_snd self outcome w) as Hw.
  destruct (run_call self outcome w) as [[[[st so] se]|e] w0]; simpl in Hw; subst w0;
    cbn [fst]; [|reflexivity].
  unfold bind, ret, emit.
  destruct (decide (st ≠ 0)).
  - destruct (report_fail self st so se elapsed w) as [[[]|e] w1]; [|reflexivity].
    destruct (quiet self); [reflexivity|]. cbn [heap events].
    rewrite <- app_assoc. reflexivity.
  - destruct (quiet self); [reflexivity|]. cbn [heap events].
    rewrite <- app_assoc. reflexivity.
Qed.

Lemma reserved_command self exit_status so se :
  reserved self exit_status so se !! py "command" = Some (VList (command self)).
Proof. unfold reserved. apply lookup_insert_eq. Qed.

Lemma reserved_exit_status self exit_status so se :
  reserved self exit_status so se !! py "exit_status" = Some (VInt exit_status).
Proof.
  unfold reserved. rewrite lookup_insert_ne by discriminate.
  apply lookup_insert_eq.
Qed.

Lemma reserved_stdout self exit_status so se :
  reserved self exit_status so se !! py "last_lines_stdout" = Some (VStr so).
Proof.
  unfold reserved. do 2 rewrite lookup_insert_ne by discriminate.
  apply lookup_insert_eq.
Qed.

Lemma reserved_stderr self exit_status so se :
  reserved self exit_status so se !! py "last_lines_stderr" = Some (VStr se).
Proof.
  unfold reserved. do 3 rewrite lookup_insert_ne by discriminate.
  apply lookup_insert_eq.
Qed.

Lemma reserved_other self exit_status so se (k : pystr) :
  k ∉ reserved_keys -> reserved self exit_status so se !! k = None.
Proof.
  unfold reserved_keys, reserved. intros Hk.
  rewrite !not_elem_of_cons in Hk. destruct Hk as (H1 & H2 & H3 & H4 & _).
  rewrite !lookup_insert_ne by congruence. apply lookup_empty.
Qed.

(** C4: the dict that goes out with the report is the caller's, with the
    four reserved keys set from the run; a caller's entry under another
    key is in it unchanged, one under a reserved key is replaced. *)
Theorem report_extra_reserved_keys_win (self : CommandReporter)
    (exit_status : Z) (so se : pystr) (elapsed : Z) (w : world)
    (d : pystr) (base : dict) :
  dsn self = Some d ->
  heap w !! extra self = Some base ->
  exists c message data (sent : dict),
    events (snd (report_fail self exit_status so se elapsed w)) =
      events w ++ [ClientCreated c; CaptureMessage c message data sent elapsed] /\
    sent !! py "command" = Some (VList (command self)) /\
    sent !! py "exit_status" = Some (VInt exit_status) /\
    sent !! py "last_lines_stdout" = Some (VStr so) /\
    sent !! py "last_lines_stderr" = Some (VStr se) /\
    forall k : pystr, k ∉ reserved_keys -> sent !! k = base !! k.
Proof.
  intros Hd Hbase.
  rewrite (report_fail_dsn _ _ _ _ _ _ _ _ Hd Hbase).
  eexists _, _, _, _. split; [reflexivity|].
  repeat split.
  - apply lookup_union_Some_l, reserved_command.
  - apply lookup_union_Some_l, reserved_exit_status.
  - apply lookup_union_Some_l, reserved_stdout.
  - apply lookup_union_Some_l, reserved_stderr.
  - intros k Hk. apply lookup_union_r, reserved_other, Hk.
Qed.

(** C9: [report_fail] leaves every dict that exists when it is called
    as it is, the one the reporter holds among them: the reserved keys
    go to a new object. *)
Theorem report_fail_keeps_extra (self : CommandReporter)
    (exit_status : Z) (so se : pystr) (elapsed : Z) (w : world) :
  heap (snd (report_fail self exit_status so se elapsed w)) !! extra self =
    heap w !! extra self /\
  forall l : nat, (l < length (heap w))%nat ->
    heap (snd (report_fail self exit_status so se elapsed w)) !! l = heap w !! l.
Proof.
  destruct (dsn self) as [d|] eqn:Hd.
  - destruct (heap w !! extra self) as [base|] eqn:Hbase.
    + rewrite (report_fail_dsn _ _ _ _ _ _ _ _ Hd Hbase). cbn.
      split.
      * apply lookup_app_l_Some. exact Hbase.
      * intros l Hl. apply lookup_app_l. exact Hl.
    + rewrite (report_fail_dangling _ _ _ _ _ _ _ Hd Hbase). cbn.
      split; [exact Hbase|reflexivity].
  - rewrite (report_fail_no_dsn _ _ _ _ _ _ Hd). split; reflexivity.
Qed.

(** ** The run *)

Lemma run_raise self outcome elapsed w e :
  fst (run_call self outcome w) = Raise e ->
  CommandReporter_run self outcome elapsed w = (Raise e, w).
Proof. intros H. rewrite run_unfold, H. reflexivity. Qed.

Lemma run_ok (self : CommandReporter) (outcome : call_outcome) (elapsed : Z)
    (w : world) (base : dict) (exit_status : Z) (so se : pystr) :
  heap w !! extra self = Some base ->
  fst (run_call self outcome w) = Ok (exit_status, so, se) ->
  fst (CommandReporter_run self outcome elapsed w) = Ok exit_status /\
  events (snd (CommandReporter_run self outcome elapsed w)) =
    events w ++ report_events self base exit_status so se elapsed
             ++ echo_events self so se.
Proof.
  intros Hbase Hcall. rewrite run_unfold, Hcall.
  unfold report_events, echo_events.
  destruct (decide (exit_status ≠ 0)) as [Hst|Hst].
  - destruct (dsn self) as [d|] eqn:Hd.
    + rewrite (report_fail_dsn _ _ _ _ _ _ _ _ Hd Hbase).
      split; [reflexivity|]. unfold reported.
      destruct (quiet self); cbn [snd heap events].
      * rewrite app_nil_r. reflexivity.
      * rewrite <- app_assoc. reflexivity.
    + rewrite (report_fail_no_dsn _ _ _ _ _ _ Hd).
      split; [reflexivity|].
      destruct (quiet self); cbn [snd heap events]; [|reflexivity].
      rewrite app_nil_r. reflexivity.
  - split; [reflexivity|].
    replace (match dsn self with Some _ => [] | None => [] end) with (@nil event)
      by (destruct (dsn self); reflexivity).
    destruct (quiet self); cbn [snd heap events]; [|reflexivity].
    rewrite app_nil_r. reflexivity.
Qed.

Lemma existsb_echo_capture self so se :
  existsb is_capture (echo_events self so se) = false.
Proof. unfold echo_events. destruct (quiet self); reflexivity. Qed.

Lemma existsb_echo_client self so se :
  existsb is_client (echo_events self so se) = false.
Proof. unfold echo_events. destruct (quiet self); reflexivity. Qed.

(** C1, as amended: the DSN counts as soon as it is given.  A run
    sends a report exactly when the reporter has a DSN, be it the empty
    str, and the run ends with an exit status that is not 0; a run that
    sends no report builds no client either. *)
Theorem report_sent_iff_dsn_given (self : CommandReporter)
    (outcome : call_outcome) (elapsed : Z) (w : world) :
  is_Some (heap w !! extra self) ->
  exists new : list event,
    events (snd (CommandReporter_run self outcome elapsed w)) = events w ++ new /\
    (existsb is_capture new = true <->
     dsn self <> None /\
     exists exit_status : Z,
       fst (CommandReporter_run self outcome elapsed w) = Ok exit_status /\
       exit_status <> 0) /\
    (existsb is_capture new = false -> existsb is_client new = false).
Proof.
  intros [base Hbase].
  destruct (fst (run_call self outcome w)) as [[[st so] se]|e] eqn:Hcall.
  - destruct (run_ok self outcome elapsed w base st so se Hbase Hcall) as [Hres Hev].
    eexists. split; [exact Hev|]. rewrite Hres.
    rewrite !existsb_app, existsb_echo_capture, existsb_echo_client, !orb_false_r.
    unfold report_events.
    destruct (dsn self) as [d|]; [destruct (decide (st ≠ 0)) as [Hst|Hst]|]; cbn.
    + split; [|discriminate]. split; [|reflexivity].
      intros _. split; [discriminate|]. exists st. split; [reflexivity|exact Hst].
    + split; [|reflexivity]. split; [discriminate|].
      intros (_ & st' & [= <-] & Hne). contradiction.
    + split; [|reflexivity]. split; [discriminate|].
      intros (Hne & _). contradiction.
  - rewrite (run_raise _ _ _ _ _ Hcall). exists []. cbn.
    split; [rewrite app_nil_r; reflexivity|].
    split; [|reflexivity]. split; [discriminate|].
    intros (_ & st & Hst & _). discriminate.
Qed.

Lemma str_OSError_nonempty (e : OSError) : str_OSError e <> [].
Proof.
  unfold str_OSError. change (py "[Errno ") with (91%N :: py "Errno ").
  discriminate.
Qed.

Lemma run_call_not_found (self : CommandReporter) (exc : OSError) (w : world) :
  run_call self (Raised (CommandNotFoundError exc)) w =
  (Ok (127, [], str_OSError exc), w).
Proof. reflexivity. Qed.

(** The exit of the program when a command is given: the status that
    the reporter returns, if it returns one. *)
Lemma update_dsn_cmd (fs : conf_files) (opts : options) :
  opt_cmd (update_dsn fs opts) = opt_cmd opts.
Proof.
  unfold update_dsn. cbn [update_dsn_loop].
  destruct (home_conf_file fs); [reflexivity|].
  destruct (system_conf_file fs); reflexivity.
Qed.

Lemma run_exits (opts : options) (fs : conf_files) (environ : gmap pystr pystr)
    (outcome : call_outcome) (elapsed : Z) (w : world) (st : Z) :
  opt_cmd opts <> [] ->
  (forall (self : CommandReporter) (w' : world),
     is_Some (heap w' !! extra self) ->
     fst (CommandReporter_run self outcome elapsed w') = Ok st) ->
  fst (run opts fs environ outcome elapsed w) = Raise (SystemExit st).
Proof.
  intros Hcmd Hrun. unfold run.
  set (opts' := if dsn_nonempty (opt_dsn opts) then opts else update_dsn fs opts).
  assert (Hcmd' : opt_cmd opts' <> []).
  { unfold opts'. destruct (dsn_nonempty (opt_dsn opts)); [exact Hcmd|].
    rewrite update_dsn_cmd. exact Hcmd. }
  clearbody opts'. cbv zeta.
  destruct (opt_cmd opts') as [|c0 rest]; [contradiction|].
  cbv [bind dict_new CommandReporter_init ret raise]. cbn [heap events].
  match goal with
  | |- context [CommandReporter_run ?r ?o ?el ?w'] =>
    specialize (Hrun r w'); destruct (CommandReporter_run r o el w') as [[st'|e] w3]
  end; cbn [fst] in *.
  - assert (Ok st' = Ok st) as [= ->]; [|reflexivity].
    apply Hrun. cbn [heap extra]. exists (VStr <$> _extra_from_env environ).
    rewrite lookup_app_l by (rewrite length_app; simpl; lia). apply lookup_snoc.
  - assert (@Raise Z e = Ok st) as Habs; [|discriminate Habs].
    apply Hrun. cbn [heap extra]. exists (VStr <$> _extra_from_env environ).
    rewrite lookup_app_l by (rewrite length_app; simpl; lia). apply lookup_snoc.
Qed.

(** C3: a command that cannot be found raises nothing to the caller of
    the reporter.  The exit status is 127, the stdout tail is empty, the
    stderr tail is the text of the error, which is never empty, and the
    program exits with 127 too. *)
Theorem command_not_found_127 (self : CommandReporter) (exc : OSError)
    (elapsed : Z) (w : world) :
  is_Some (heap w !! extra self) ->
  fst (run_call self (Raised (CommandNotFoundError exc)) w) =
    Ok (127, [], str_OSError exc) /\
  str_OSError exc <> [] /\
  fst (CommandReporter_run self (Raised (CommandNotFoundError exc)) elapsed w) =
    Ok 127 /\
  forall (opts : options) (fs : conf_files) (environ : gmap pystr pystr)
         (w' : world),
    opt_cmd opts <> [] ->
    fst (run opts fs environ (Raised (CommandNotFoundError exc)) elapsed w') =
      Raise (SystemExit 127).
Proof.
  intros [base Hbase].
  split; [reflexivity|]. split; [apply str_OSError_nonempty|]. split.
  - eapply run_ok; [exact Hbase|reflexivity].
  - intros opts fs environ w' Hcmd. apply run_exits; [exact Hcmd|].
    intros r w'' [b Hb]. eapply run_ok; [exact Hb|reflexivity].
Qed.

(** C5: 5000 times [a] on stdout, exit status 1, a limit of 10 and a
    DSN: the stdout tail is ["...aaaaaaa"], the status is 1, and the
    report carries both, the tail under [last_lines_stdout]. *)
Theorem five_thousand_a (self : CommandReporter) (d : pystr) (base : dict)
    (elapsed : Z) (w : world) :
  string_max_length self = 10 ->
  dsn self = Some d ->
  heap w !! extra self = Some base ->
  let outcome := Exited 1 (replicate 5000 "a"%byte) [] in
  fst (run_call self outcome w) = Ok (1, py "...aaaaaaa", []) /\
  fst (CommandReporter_run self outcome elapsed w) = Ok 1 /\
  exists c message data (sent : dict) echo,
    events (snd (CommandReporter_run self outcome elapsed w)) =
      events w ++ [ClientCreated c; CaptureMessage c message data sent elapsed]
               ++ echo /\
    sent !! py "exit_status" = Some (VInt 1) /\
    sent !! py "last_lines_stdout" = Some (VStr (py "...aaaaaaa")).
Proof.
  intros HL Hd Hbase outcome.
  assert (Hcall : fst (run_call self outcome w) = Ok (1, py "...aaaaaaa", [])).
  { unfold outcome, run_call, bind, on_file, ret.
    rewrite !get_last_lines_fst, HL. vm_compute. reflexivity. }
  split; [exact Hcall|].
  destruct (run_ok self outcome elapsed w base _ _ _ Hbase Hcall) as [Hres Hev].
  split; [exact Hres|].
  rewrite Hev. unfold report_events. rewrite Hd.
  destruct (decide (1 ≠ 0)) as [_|Habs]; [|contradiction Habs; discriminate].
  eexists _, _, _, _, _. split; [reflexivity|]. split.
  - apply lookup_union_Some_l, reserved_exit_status.
  - apply lookup_union_Some_l, reserved_stdout.
Qed.

Lemma filter_write_report (self : CommandReporter) (base : dict)
    (exit_status : Z) (so se : pystr) (elapsed : Z) :
  List.filter is_write (report_events self base exit_status so se elapsed) = [].
Proof.
  unfold report_events.
  destruct (dsn self); [destruct (decide (exit_status ≠ 0))|]; reflexivity.
Qed.

(** C6: a quiet run writes nothing to the two streams, whatever the exit
    status; a run that is not quiet and has extracted the two tails
    writes just these, stdout first.  A run that raised before it had
    the tails wrote nothing. *)
Theorem echo_unless_quiet (self : CommandReporter) (outcome : call_outcome)
    (elapsed : Z) (w : world) :
  is_Some (heap w !! extra self) ->
  exists new : list event,
    events (snd (CommandReporter_run self outcome elapsed w)) = events w ++ new /\
    (quiet self = true -> List.filter is_write new = []) /\
    (quiet self = false ->
     match fst (run_call self outcome w) with
     | Ok (exit_status, so, se) =>
       fst (CommandReporter_run self outcome elapsed w) = Ok exit_status /\
       List.filter is_write new = [StdoutWrite so; StderrWrite se]
     | Raise e =>
       fst (CommandReporter_run self outcome elapsed w) = Raise e /\ new = []
     end).
Proof.
  intros [base Hbase].
  destruct (fst (run_call self outcome w)) as [[[st so] se]|e] eqn:Hcall.
  - destruct (run_ok self outcome elapsed w base st so se Hbase Hcall) as [Hres Hev].
    eexists. split; [exact Hev|].
    rewrite List.filter_app, filter_write_report. unfold echo_events.
    split; intros ->; [reflexivity|]. split; [exact Hres|reflexivity].
  - rewrite (run_raise _ _ _ _ _ Hcall). exists []. cbn.
    split; [rewrite app_nil_r; reflexivity|].
    split; intros _; [reflexivity|]. split; reflexivity.
Qed.

(** The events of any run, in all cases. *)
Lemma run_events (self : CommandReporter) (outcome : call_outcome)
    (elapsed : Z) (w : world) :
  match fst (run_call self outcome w), heap w !! extra self with
  | Ok (exit_status, so, se), Some base =>
    events (snd (CommandReporter_run self outcome elapsed w)) =
      events w ++ report_events self base exit_status so se elapsed
               ++ echo_events self so se
  | Ok (exit_status, so, se), None =>
    exists new,
      events (snd (CommandReporter_run self outcome elapsed w)) = events w ++ new /\
      existsb is_capture new = false
  | Raise _, _ =>
    events (snd (CommandReporter_run self outcome elapsed w)) = events w
  end.
Proof.
  destruct (fst (run_call self outcome w)) as [[[st so] se]|e] eqn:Hcall.
  - destruct (heap w !! extra self) as [base|] eqn:Hbase.
    + apply (run_ok self outcome elapsed w base st so se Hbase Hcall).
    + rewrite run_unfold, Hcall.
      destruct (decide (st ≠ 0)) as [Hst|Hst].
      * destruct (dsn self) as [d|] eqn:Hd.
        -- rewrite (report_fail_dangling _ _ _ _ _ _ _ Hd Hbase). cbn.
           eexists. split; reflexivity.
        -- rewrite (report_fail_no_dsn _ _ _ _ _ _ Hd).
           exists (echo_events self so se). unfold echo_events.
           destruct (quiet self); cbn; [rewrite app_nil_r|]; split; reflexivity.
      * exists (echo_events self so se). unfold echo_events.
        destruct (quiet self); cbn; [rewrite app_nil_r|]; split; reflexivity.
  - destruct (heap w !! extra self); rewrite (run_raise _ _ _ _ _ Hcall);
      reflexivity.
Qed.

Lemma capture_in_report (self : CommandReporter) (base : dict)
    (exit_status : Z) (so se : pystr) (elapsed : Z)
    (c : Client) (message : pystr) (data sent : dict) (t : Z) :
  CaptureMessage c message data sent t
    ∈ report_events self base exit_status so se elapsed ->
  sent = reserved self exit_status so se ∪ base.
Proof.
  unfold report_events.
  destruct (dsn self); [destruct (decide (exit_status ≠ 0))|];
    rewrite ?elem_of_cons, ?elem_of_nil; intros H;
    repeat match goal with
           | H : _ \/ _ |- _ => destruct H as [H|H]
           end; try contradiction; try discriminate.
  injection H as _ _ _ ->. reflexivity.
Qed.

Lemma report_events_no_write (self : CommandReporter) (base : dict)
    (exit_status : Z) (so se : pystr) (elapsed : Z) (e : event) :
  e ∈ report_events self base exit_status so se elapsed -> is_write e = false.
Proof.
  unfold report_events.
  destruct (dsn self); [destruct (decide (exit_status ≠ 0))|];
    rewrite ?elem_of_cons, ?elem_of_nil; intros H;
    repeat match goal with
           | H : _ \/ _ |- _ => destruct H as [H|H]
           end; try contradiction; subst e; reflexivity.
Qed.

Lemma elem_of_existsb {A} (p : A -> bool) (x : A) (l : list A) :
  x ∈ l -> p x = true -> existsb p l = true.
Proof.
  intros Hin Hp. apply existsb_exists. exists x.
  split; [apply list_elem_of_In, Hin|exact Hp].
Qed.

(** C10: in a run that both reports and echoes, the text written to
    stdout is the value of [last_lines_stdout] in the report and the
    text written to stderr that of [last_lines_stderr]: they are the two
    tails that the run extracted, once each. *)
Theorem echoed_tails_are_the_reported_ones (self : CommandReporter)
    (outcome : call_outcome) (elapsed : Z) (w : world) :
  exists new : list event,
    events (snd (CommandReporter_run self outcome elapsed w)) = events w ++ new /\
    forall (c : Client) (message : pystr) (data sent : dict) (t : Z)
           (so se : pystr),
      CaptureMessage c message data sent t ∈ new ->
      StdoutWrite so ∈ new ->
      StderrWrite se ∈ new ->
      (exists exit_status : Z,
         fst (run_call self outcome w) = Ok (exit_status, so, se)) /\
      sent !! py "last_lines_stdout" = Some (VStr so) /\
      sent !! py "last_lines_stderr" = Some (VStr se).
Proof.
  pose proof (run_events self outcome elapsed w) as Hev.
  destruct (fst (run_call self outcome w)) as [[[st so0] se0]|e] eqn:Hcall.
  - destruct (heap w !! extra self) as [base|] eqn:Hbase.
    + eexists. split; [exact Hev|].
      intros c message data sent t so se Hcap Hout Herr.
      apply elem_of_app in Hcap as [Hcap|Hcap]; cycle 1.
      { pose proof (existsb_echo_capture self so0 se0) as Hno.
        rewrite (elem_of_existsb is_capture _ _ Hcap eq_refl) in Hno.
        discriminate. }
      apply capture_in_report in Hcap as ->.
      assert (so = so0 /\ se = se0) as [-> ->].
      { apply elem_of_app in Hout as [Hout|Hout];
          [apply report_events_no_write in Hout; discriminate|].
        apply elem_of_app in Herr as [Herr|Herr];
          [apply report_events_no_write in Herr; discriminate|].
        unfold echo_events in *. destruct (quiet self).
        - apply elem_of_nil in Hout. destruct Hout.
        - rewrite !elem_of_cons, elem_of_nil in Hout, Herr.
          destruct Hout as [[= ->]|[[=]|[]]].
          destruct Herr as [[=]|[[= ->]|[]]]. split; reflexivity. }
      split; [exists st; reflexivity|]. split.
      * apply lookup_union_Some_l, reserved_stdout.
      * apply lookup_union_Some_l, reserved_stderr.
    + destruct Hev as (new & Hev & Hno). exists new. split; [exact Hev|].
      intros c message data sent t so se Hcap _ _.
      rewrite (elem_of_existsb is_capture _ _ Hcap eq_refl) in Hno. discriminate.
  - exists []. split; [rewrite app_nil_r; destruct (heap w !! extra self); exact Hev|].
    intros c message data sent t so se Hcap. apply elem_of_nil in Hcap. destruct Hcap.
Qed.

(** ** The metadata of the environment *)

(** The loop, for items with distinct keys in any order. *)
Lemma extra_loop_lookup (items : list (pystr * pystr)) :
  forall (res : gmap pystr pystr) (k : pystr),
    NoDup items.*1 ->
    extra_loop items res !! k =
    match (if decide (k = []) then None
           else (list_to_map items : gmap pystr pystr) !! (env_var_prefix ++ k)) with
    | Some v => Some v
    | None => res !! k
    end.
Proof.
  induction items as [|[k0 v0] items IH]; intros res k Hnd.
  - cbn [extra_loop list_to_map foldr]. rewrite lookup_empty.
    destruct (decide (k = [])); reflexivity.
  - rewrite fmap_cons in Hnd. apply NoDup_cons in Hnd as [Hk0 Hnd].
    cbn [extra_loop]. rewrite IH by exact Hnd.
    cbn [list_to_map foldr]. cbn [fst snd curry uncurry].
    destruct (decide (k = [])) as [->|Hk].
    + destruct (startswith k0 env_var_prefix); [|reflexivity].
      destruct (drop (length env_var_prefix) k0) as [|c t] eqn:Hdrop; [reflexivity|].
      rewrite lookup_insert_ne by discriminate. reflexivity.
    + destruct (decide (k0 = env_var_prefix ++ k)) as [->|Hne].
      * rewrite lookup_insert_eq.
        rewrite (not_elem_of_list_to_map_1 _ _ Hk0).
        rewrite startswith_app, drop_app_length.
        destruct k as [|c t]; [contradiction|]. apply lookup_insert_eq.
      * rewrite lookup_insert_ne by exact Hne.
        destruct (list_to_map items !! (env_var_prefix ++ k)); [reflexivity|].
        destruct (startswith k0 env_var_prefix) eqn:Hsw; [|reflexivity].
        apply startswith_drop in Hsw.
        destruct (drop (length env_var_prefix) k0) as [|c t] eqn:Hdrop; [reflexivity|].
        apply lookup_insert_ne. intros <-. congruence.
Qed.

(** C7: the metadata taken from the environment has an entry under a
    key exactly when the key is not empty and the environment has one
    under the prefix followed by that key; the value is the same. *)
Theorem extra_from_env_lookup (env : gmap pystr pystr) (k : pystr) :
  _extra_from_env env !! k =
  if decide (k = []) then None else env !! (env_var_prefix ++ k).
Proof.
  unfold _extra_from_env.
  rewrite extra_loop_lookup by apply NoDup_fst_map_to_list.
  rewrite list_to_map_to_list, lookup_empty.
  destruct (decide (k = [])); [reflexivity|].
  destruct (env !! (env_var_prefix ++ k)); reflexivity.
Qed.

(** ** More on the tail extractor *)

Lemma utf8_decode_ascii (b : pybytes) :
  ascii_bytes b -> utf8_decode b = Some (ascii_text b).
Proof.
  unfold ascii_bytes, ascii_text. induction 1 as [|x b Hx _ IH]; [reflexivity|].
  cbn [utf8_decode]. apply N.ltb_lt in Hx. rewrite Hx, IH. reflexivity.
Qed.

Lemma decode_ascii (b : pybytes) : ascii_bytes b -> decode b = Ok (ascii_text b).
Proof. intros H. unfold decode. rewrite utf8_decode_ascii by exact H. reflexivity. Qed.

Lemma ascii_bytes_drop (n : nat) (b : pybytes) :
  ascii_bytes b -> ascii_bytes (drop n b).
Proof. unfold ascii_bytes. apply Forall_drop. Qed.

Lemma ascii_text_len (b : pybytes) : len (ascii_text b) = len b.
Proof. unfold len, ascii_text. rewrite length_fmap. reflexivity. Qed.


(** X2: on ASCII output the extractor always returns: the whole text below
    the limit, and from the limit on ["..."] and the last [limit - 3]
    characters, which is [limit] characters when the limit is at least
    3. *)
Theorem get_last_lines_ascii (self : CommandReporter) (f : file) :
  ascii_bytes (content f) ->
  (len (content f) < string_max_length self ->
   fst (_get_last_lines self f) = Ok (ascii_text (content f))) /\
  (string_max_length self <= len (content f) ->
   fst (_get_last_lines self f) =
     Ok (py "..." ++ ascii_text (tail_bytes (string_max_length self) (content f))) /\
   (3 <= string_max_length self ->
    len (py "..." ++ ascii_text (tail_bytes (string_max_length self) (content f)))
    = string_max_length self)).
Proof.
  intros Hascii. rewrite get_last_lines_fst. split.
  - intros Hlt. apply Z.ltb_lt in Hlt. rewrite Hlt. apply decode_ascii, Hascii.
  - intros Hge. pose proof Hge as Hb. apply Z.ltb_ge in Hb. rewrite Hb.
    unfold tail_bytes at 1. rewrite decode_ascii by apply ascii_bytes_drop, Hascii.
    split; [reflexivity|]. intros H3.
    pose proof (ascii_text_len (tail_bytes (string_max_length self) (content f))) as Hl.
    rewrite tail_bytes_len in Hl by lia.
    unfold len in *. rewrite length_app. simpl. lia.
Qed.

(** X3: a store of exactly [limit] bytes is cut although it would fit: its
    first 3 bytes are replaced by ["..."]. *)
Theorem get_last_lines_exact_fit_is_cut (self : CommandReporter) (f : file) :
  ascii_bytes (content f) ->
  len (content f) = string_max_length self ->
  fst (_get_last_lines self f) = Ok (py "..." ++ ascii_text (drop 3 (content f))).
Proof.
  intros Hascii Hlen. rewrite get_last_lines_fst.
  assert (Hb : (len (content f) <? string_max_length self) = false)
    by (apply Z.ltb_ge; lia).
  rewrite Hb. unfold tail_bytes. rewrite <- Hlen.
  replace (Z.to_nat (len (content f) - (len (content f) - 3))) with 3%nat by lia.
  rewrite decode_ascii by apply ascii_bytes_drop, Hascii. reflexivity.
Qed.


(** Decoding goes through a cut between two texts. *)
Lemma utf8_decode_app_aux (n : nat) :
  forall (a : pybytes) (s : pystr) (b : pybytes) (t : pystr),
    (length a <= n)%nat ->
    utf8_decode a = Some s -> utf8_decode b = Some t ->
    utf8_decode (a ++ b) = Some (s ++ t).
Proof.
  induction n as [|n IH]; intros a s b t Hn Ha Hb.
  - destruct a; simpl in Hn; [|lia]. injection Ha as <-. exact Hb.
  - destruct a as [|b0 r0]; [injection Ha as <-; exact Hb|].
    simpl in Hn. cbn [app utf8_decode] in *.
    destruct (_ <? _)%N.
    { apply fmap_Some in Ha as (s' & Hr & ->).
      rewrite (IH r0 s' b t) by (assumption || lia). reflexivity. }
    destruct r0 as [|b1 r1]; [discriminate|]. simpl in Hn. cbn [app] in *.
    destruct (in_range 194 223 _).
    { destruct (is_cont _); [|discriminate].
      apply fmap_Some in Ha as (s' & Hr & ->).
      rewrite (IH r1 s' b t) by (assumption || lia). reflexivity. }
    destruct r1 as [|b2 r2]; [discriminate|]. simpl in Hn. cbn [app] in *.
    destruct (in_range 224 239 _).
    { destruct (_ && _); [|discriminate].
      apply fmap_Some in Ha as (s' & Hr & ->).
      rewrite (IH r2 s' b t) by (assumption || lia). reflexivity. }
    destruct r2 as [|b3 r3]; [discriminate|]. simpl in Hn. cbn [app] in *.
    destruct (_ && _); [|discriminate].
    apply fmap_Some in Ha as (s' & Hr & ->).
    rewrite (IH r3 s' b t) by (assumption || lia). reflexivity.
Qed.

Lemma decode_app (a b : pybytes) (s t : pystr) :
  decode a = Ok s -> decode b = Ok t -> decode (a ++ b) = Ok (s ++ t).
Proof.
  unfold decode.
  destruct (utf8_decode a) as [s'|] eqn:Ha; [|discriminate].
  destruct (utf8_decode b) as [t'|] eqn:Hb; [|discriminate].
  intros [= <-] [= <-].
  rewrite (utf8_decode_app_aux (length a) a s' b t' (le_n _) Ha Hb). reflexivity.
Qed.

(** X5: when the cut falls between two code points, the text returned
    after ["..."] is the end of the text of the whole store. *)
Theorem get_last_lines_tail_is_suffix (self : CommandReporter) (f : file)
    (head tail : pystr) :
  string_max_length self <= len (content f) ->
  decode (take (Z.to_nat (len (content f) - (string_max_length self - 3)))
            (content f)) = Ok head ->
  decode (tail_bytes (string_max_length self) (content f)) = Ok tail ->
  decode (content f) = Ok (head ++ tail) /\
  fst (_get_last_lines self f) = Ok (py "..." ++ tail).
Proof.
  intros Hge Hhead Htail. split.
  - rewrite <- (take_drop (Z.to_nat (len (content f) - (string_max_length self - 3)))
                  (content f)) at 1.
    apply decode_app; [exact Hhead|exact Htail].
  - rewrite get_last_lines_fst. apply Z.ltb_ge in Hge. rewrite Hge, Htail.
    reflexivity.
Qed.

(** ** More on the run *)

Lemma run_call_exited (self : CommandReporter) (exit_status : Z)
    (out err : pybytes) (w : world) :
  fst (run_call self (Exited exit_status out err) w) =
  match fst (_get_last_lines self (written out)) with
  | Ok so =>
    match fst (_get_last_lines self (written err)) with
    | Ok se => Ok (exit_status, so, se)
    | Raise e => Raise e
    end
  | Raise e => Raise e
  end.
Proof.
  unfold run_call, bind, on_file, ret.
  destruct (fst (_get_last_lines self (written out))); [|reflexivity].
  destruct (fst (_get_last_lines self (written err))); reflexivity.
Qed.

Lemma get_last_lines_ascii_ok (self : CommandReporter) (b : pybytes) :
  ascii_bytes b -> exists s, fst (_get_last_lines self (written b)) = Ok s.
Proof.
  intros H. rewrite get_last_lines_fst. cbn [content written].
  destruct (_ <? _).
  - rewrite decode_ascii by exact H. eauto.
  - unfold tail_bytes. rewrite decode_ascii by apply ascii_bytes_drop, H. eauto.
Qed.

Lemma run_call_ascii (self : CommandReporter) (exit_status : Z)
    (out err : pybytes) (w : world) :
  ascii_bytes out -> ascii_bytes err ->
  exists so se,
    fst (run_call self (Exited exit_status out err) w) = Ok (exit_status, so, se).
Proof.
  intros Ho He. rewrite run_call_exited.
  destruct (get_last_lines_ascii_ok self out Ho) as [so ->].
  destruct (get_last_lines_ascii_ok self err He) as [se ->]. eauto.
Qed.

(** X6: only the error of a command that is not found is turned into a
    status: any other exception of the call leaves the run as it came,
    with nothing reported and nothing echoed. *)
Theorem run_reraises_other_exceptions (self : CommandReporter) (e : exn)
    (elapsed : Z) (w : world) :
  (forall exc, e <> CommandNotFoundError exc) ->
  CommandReporter_run self (Raised e) elapsed w = (Raise e, w).
Proof.
  intros Hne. apply run_raise.
  destruct e; try reflexivity. contradiction (Hne e eq_refl).
Qed.

(** X7: output that is not UTF-8 where it is read stops the run before the
    report: whatever the exit status, the error of the decoder is
    raised, nothing is sent and nothing is echoed. *)
Theorem run_undecodable_output_not_reported (self : CommandReporter)
    (exit_status : Z) (out err : pybytes) (elapsed : Z) (w : world) (e : exn) :
  fst (_get_last_lines self (written out)) = Raise e \/
  ((exists so, fst (_get_last_lines self (written out)) = Ok so) /\
   fst (_get_last_lines self (written err)) = Raise e) ->
  CommandReporter_run self (Exited exit_status out err) elapsed w = (Raise e, w).
Proof.
  intros H. apply run_raise. rewrite run_call_exited.
  destruct H as [->|[[so ->] ->]]; reflexivity.
Qed.

(** X8: a command that exits with 0 is never reported: the run returns 0,
    the heap is as before and the log has the echo and nothing else,
    whatever the DSN and even if the reporter holds no dict. *)
Theorem run_success_only_echoes (self : CommandReporter) (out err : pybytes)
    (so se : pystr) (elapsed : Z) (w : world) :
  fst (_get_last_lines self (written out)) = Ok so ->
  fst (_get_last_lines self (written err)) = Ok se ->
  CommandReporter_run self (Exited 0 out err) elapsed w =
  (Ok 0, mkworld (heap w) (events w ++ echo_events self so se)).
Proof.
  intros Ho He. rewrite run_unfold, run_call_exited, Ho, He.
  destruct (decide (0 ≠ 0)) as [Habs|_]; [contradiction Habs; reflexivity|].
  unfold echo_events. destruct (quiet self); [|reflexivity].
  rewrite app_nil_r. destruct w; reflexivity.
Qed.

Lemma capture_in_report_all (self : CommandReporter) (base : dict)
    (exit_status : Z) (so se : pystr) (elapsed : Z)
    (c : Client) (message : pystr) (data sent : dict) (t : Z) :
  CaptureMessage c message data sent t
    ∈ report_events self base exit_status so se elapsed ->
  exit_status <> 0 /\
  (exists d, dsn self = Some d /\ c = mkClient d (string_max_length self)) /\
  message = fail_message self /\
  data = {[ py "logger" := VStr (py "cron") ]} /\
  sent = reserved self exit_status so se ∪ base /\
  t = elapsed.
Proof.
  unfold report_events.
  destruct (dsn self) as [d|]; [destruct (decide (exit_status ≠ 0)) as [Hst|]|];
    rewrite ?elem_of_cons, ?elem_of_nil; intros H;
    repeat match goal with
           | H : _ \/ _ |- _ => destruct H as [H|H]
           end; try contradiction; try discriminate.
  injection H as -> -> -> -> ->. repeat split; eauto.
Qed.

(** X9: what a report says of the run that sent it: the exit status in it
    is the one the run returns, which is not 0; the command, the DSN and
    the limit are those of the reporter; the logger is [cron] and the
    time spent is the time measured. *)
Theorem report_describes_the_run (self : CommandReporter)
    (outcome : call_outcome) (elapsed : Z) (w : world) :
  exists new : list event,
    events (snd (CommandReporter_run self outcome elapsed w)) = events w ++ new /\
    forall (c : Client) (message : pystr) (data sent : dict) (t : Z),
      CaptureMessage c message data sent t ∈ new ->
      (exists exit_status : Z,
         fst (CommandReporter_run self outcome elapsed w) = Ok exit_status /\
         exit_status <> 0 /\
         sent !! py "exit_status" = Some (VInt exit_status)) /\
      sent !! py "command" = Some (VList (command self)) /\
      dsn self = Some (client_dsn c) /\
      client_string_max_length c = string_max_length self /\
      message = fail_message self /\
      data !! py "logger" = Some (VStr (py "cron")) /\
      t = elapsed.
Proof.
  pose proof (run_events self outcome elapsed w) as Hev.
  destruct (fst (run_call self outcome w)) as [[[st so] se]|e] eqn:Hcall.
  - destruct (heap w !! extra self) as [base|] eqn:Hbase.
    + eexists. split; [exact Hev|].
      intros c message data sent t Hcap.
      apply elem_of_app in Hcap as [Hcap|Hcap]; cycle 1.
      { pose proof (existsb_echo_capture self so se) as Hno.
        rewrite (elem_of_existsb is_capture _ _ Hcap eq_refl) in Hno.
        discriminate. }
      apply capture_in_report_all in Hcap
        as (Hst & (d & Hd & ->) & -> & -> & -> & ->).
      destruct (run_ok self outcome elapsed w base st so se Hbase Hcall) as [Hres _].
      split; [exists st; split; [exact Hres|split; [exact Hst|]];
              apply lookup_union_Some_l, reserved_exit_status|].
      split; [apply lookup_union_Some_l, reserved_command|].
      split; [exact Hd|]. split; [reflexivity|]. split; [reflexivity|].
      split; [apply lookup_singleton_eq|reflexivity].
    + destruct Hev as (new & Hev & Hno). exists new. split; [exact Hev|].
      intros c message data sent t Hcap.
      rewrite (elem_of_existsb is_capture _ _ Hcap eq_refl) in Hno. discriminate.
  - exists []. split; [rewrite app_nil_r; destruct (heap w !! extra self); exact Hev|].
    intros c message data sent t Hcap. apply elem_of_nil in Hcap. destruct Hcap.
Qed.

Lemma echo_events_writes (self : CommandReporter) (so se : pystr) (e : event) :
  e ∈ echo_events self so se -> is_write e = true.
Proof.
  unfold echo_events. destruct (quiet self);
    rewrite ?elem_of_cons, ?elem_of_nil; intros H;
    repeat match goal with
           | H : _ \/ _ |- _ => destruct H as [H|H]
           end; try contradiction; subst e; reflexivity.
Qed.

Lemma filter_capture_echo (self : CommandReporter) (so se : pystr) :
  List.filter is_capture (echo_events self so se) = [].
Proof. unfold echo_events. destruct (quiet self); reflexivity. Qed.

Lemma filter_capture_report (self : CommandReporter) (base : dict)
    (exit_status : Z) (so se : pystr) (elapsed : Z) :
  (length (List.filter is_capture
             (report_events self base exit_status so se elapsed)) <= 1)%nat.
Proof.
  unfold report_events.
  destruct (dsn self); [destruct (decide (exit_status ≠ 0))|]; simpl; lia.
Qed.

(** X10: a run sends at most one report, and sends it before it echoes
    anything: what it adds to the log is a part without any write,
    holding at most one message, followed by a part of writes only. *)
Theorem run_reports_once_before_echo (self : CommandReporter)
    (outcome : call_outcome) (elapsed : Z) (w : world) :
  exists rep echo : list event,
    events (snd (CommandReporter_run self outcome elapsed w)) =
      events w ++ rep ++ echo /\
    (length (List.filter is_capture rep) <= 1)%nat /\
    List.filter is_write rep = [] /\
    List.filter is_capture echo = [] /\
    forall e, e ∈ echo -> is_write e = true.
Proof.
  destruct (fst (run_call self outcome w)) as [[[st so] se]|e] eqn:Hcall.
  - destruct (heap w !! extra self) as [base|] eqn:Hbase.
    + destruct (run_ok self outcome elapsed w base st so se Hbase Hcall) as [_ Hev].
      exists (report_events self base st so se elapsed), (echo_events self so se).
      split; [exact Hev|]. split; [apply filter_capture_report|].
      split; [apply filter_write_report|]. split; [apply filter_capture_echo|].
      apply echo_events_writes.
    + rewrite run_unfold, Hcall.
      destruct (decide (st ≠ 0)) as [Hst|Hst]; [destruct (dsn self) as [d|] eqn:Hd|].
      * rewrite (report_fail_dangling _ _ _ _ _ _ _ Hd Hbase). cbn [snd events].
        exists [ClientCreated (mkClient d (string_max_length self))], [].
        repeat split; try (simpl; lia).
        intros e He. apply elem_of_nil in He. destruct He.
      * rewrite (report_fail_no_dsn _ _ _ _ _ _ Hd).
        exists [], (echo_events self so se). cbn [app].
        split; [unfold echo_events; destruct (quiet self); cbn;
                [rewrite app_nil_r|]; reflexivity|].
        split; [simpl; lia|]. split; [reflexivity|].
        split; [apply filter_capture_echo|apply echo_events_writes].
      * exists [], (echo_events self so se). cbn [app].
        split; [unfold echo_events; destruct (quiet self); cbn;
                [rewrite app_nil_r|]; reflexivity|].
        split; [simpl; lia|]. split; [reflexivity|].
        split; [apply filter_capture_echo|apply echo_events_writes].
  - rewrite (run_raise _ _ _ _ _ Hcall). exists [], []. cbn.
    split; [rewrite app_nil_r; reflexivity|].
    repeat split; try lia.
    intros e' He. apply elem_of_nil in He. destruct He.
Qed.

(** X11: a command that is not found is reported like one that failed: with
    a DSN, the run sends one report with exit status 127, an empty
    stdout tail and the text of the error as stderr tail, then echoes
    these two tails unless it is quiet. *)
Theorem command_not_found_is_reported (self : CommandReporter) (exc : OSError)
    (elapsed : Z) (w : world) (d : pystr) (base : dict) :
  dsn self = Some d ->
  heap w !! extra self = Some base ->
  exists sent : dict,
    events (snd (CommandReporter_run self (Raised (CommandNotFoundError exc))
                   elapsed w)) =
      events w ++
      [ClientCreated (mkClient d (string_max_length self));
       CaptureMessage (mkClient d (string_max_length self)) (fail_message self)
         {[ py "logger" := VStr (py "cron") ]} sent elapsed] ++
      echo_events self [] (str_OSError exc) /\
    sent !! py "exit_status" = Some (VInt 127) /\
    sent !! py "last_lines_stdout" = Some (VStr []) /\
    sent !! py "last_lines_stderr" = Some (VStr (str_OSError exc)).
Proof.
  intros Hd Hbase.
  destruct (run_ok self (Raised (CommandNotFoundError exc)) elapsed w base
              127 [] (str_OSError exc) Hbase eq_refl) as [_ Hev].
  rewrite Hev. unfold report_events. rewrite Hd.
  destruct (decide (127 ≠ 0)) as [_|Habs]; [|contradiction Habs; discriminate].
  eexists. split; [reflexivity|]. split; [|split].
  - apply lookup_union_Some_l, reserved_exit_status.
  - apply lookup_union_Some_l, reserved_stdout.
  - apply lookup_union_Some_l, reserved_stderr.
Qed.

(** ** The reporter and its dict *)

(** X12: reporters built without [extra] share nothing: each holds an empty
    dict of its own, and the dicts that existed are as they were. *)
Theorem init_without_extra_is_fresh (cmd1 cmd2 : list pystr)
    (dsn1 dsn2 : option pystr) (max1 max2 : Z) (quiet1 quiet2 : bool) (w : world) :
  exists (r1 r2 : CommandReporter) (w1 w2 : world),
    CommandReporter_init cmd1 dsn1 max1 quiet1 None w = (Ok r1, w1) /\
    CommandReporter_init cmd2 dsn2 max2 quiet2 None w1 = (Ok r2, w2) /\
    extra r1 <> extra r2 /\
    heap w2 !! extra r1 = Some ∅ /\
    heap w2 !! extra r2 = Some ∅ /\
    forall (l : nat) (d : dict), heap w !! l = Some d -> heap w2 !! l = Some d.
Proof.
  eexists _, _, _, _. split; [reflexivity|]. split; [reflexivity|].
  cbn [extra heap]. rewrite length_app. cbn [length].
  split; [lia|]. split; [|split].
  - rewrite lookup_app_l by (rewrite length_app; simpl; lia). apply lookup_snoc.
  - replace (length (heap w) + 1)%nat with (length (heap w ++ [(∅ : dict)]))
      by (rewrite length_app; reflexivity).
    apply lookup_snoc.
  - intros l d Hl. do 2 apply lookup_app_l_Some. exact Hl.
Qed.

(** X13: a reporter built with [extra] holds the caller's dict itself: what
    the caller puts into it afterwards is in the report. *)
Theorem init_keeps_the_callers_dict (cmd : list pystr) (d : pystr) (max : Z)
    (q : bool) (e : nat) (base : dict) (w : world) :
  heap w !! e = Some base ->
  exists (r : CommandReporter) (w1 : world),
    CommandReporter_init cmd (Some d) max q (Some e) w = (Ok r, w1) /\
    extra r = e /\
    forall (other : dict) (exit_status : Z) (so se : pystr) (elapsed : Z),
      exists c message data,
        events (snd (report_fail r exit_status so se elapsed
                       (snd (dict_update e other w1)))) =
        events w ++
        [ClientCreated c;
         CaptureMessage c message data
           (reserved r exit_status so se ∪ (other ∪ base)) elapsed].
Proof.
  intros Hbase. eexists _, _. split; [reflexivity|]. split; [reflexivity|].
  intros other st so se elapsed.
  unfold dict_update. cbn [heap events].
  rewrite (lookup_app_l_Some _ _ _ _ Hbase). cbn [snd].
  erewrite report_fail_dsn; [| reflexivity |].
  - cbn [snd reported events]. eexists _, _, _. reflexivity.
  - cbn [heap extra]. apply list_lookup_insert_eq.
    rewrite length_app. apply lookup_lt_Some in Hbase. lia.
Qed.

(** ** The program *)

Lemma extra_env_lookup (env : gmap pystr pystr) (k : pystr) :
  _extra_from_env env !! k =
  if decide (k = []) then None else env !! (env_var_prefix ++ k).
Proof.
  unfold _extra_from_env.
  rewrite extra_loop_lookup by apply NoDup_fst_map_to_list.
  rewrite list_to_map_to_list, lookup_empty.
  destruct (decide (k = [])); [reflexivity|].
  destruct (env !! (env_var_prefix ++ k)); reflexivity.
Qed.

(** [run] with a command: the reporter it builds and the world it runs
    it in. *)
Lemma run_unfold_cmd (parsed : options) (fs : conf_files)
    (environ : gmap pystr pystr) (outcome : call_outcome) (elapsed : Z)
    (w : world) (c0 : pystr) (rest : list pystr) :
  opt_cmd parsed = c0 :: rest ->
  run parsed fs environ outcome elapsed w =
  let opts := if dsn_nonempty (opt_dsn parsed) then parsed
              else update_dsn fs parsed in
  match CommandReporter_run
          (mkCommandReporter (opt_dsn opts)
             (if decide (c0 = py "--") then rest else c0 :: rest)
             (opt_string_max_length parsed) (opt_quiet parsed) (length (heap w)))
          outcome elapsed
          (mkworld ((heap w ++ [VStr <$> _extra_from_env environ]) ++ [∅])
             (events w)) with
  | (Ok exit_status, w') => (Raise (SystemExit exit_status), w')
  | (Raise e, w') => (Raise e, w')
  end.
Proof.
  intros Hcmd. unfold run.
  assert (Hopts : forall opts,
            opts = (if dsn_nonempty (opt_dsn parsed) then parsed
                    else update_dsn fs parsed) ->
            opt_cmd opts = c0 :: rest /\
            opt_string_max_length opts = opt_string_max_length parsed /\
            opt_quiet opts = opt_quiet parsed).
  { intros opts ->. destruct (dsn_nonempty (opt_dsn parsed)); [auto|].
    rewrite update_dsn_cmd. split; [exact Hcmd|].
    unfold update_dsn. cbn [update_dsn_loop].
    destruct (home_conf_file fs); [split; reflexivity|].
    destruct (system_conf_file fs); split; reflexivity. }
  cbv zeta.
  destruct (Hopts _ eq_refl) as (-> & -> & ->).
  cbv [bind dict_new CommandReporter_init ret raise]. cbn [heap events].
  destruct (CommandReporter_run _ _ _ _) as [[st|e] w']; reflexivity.
Qed.

(** X14: without a command the program says so on stderr, prints its usage
    and exits with 1, quiet or not; it builds no reporter and no dict. *)
Theorem run_without_command (parsed : options) (fs : conf_files)
    (environ : gmap pystr pystr) (outcome : call_outcome) (elapsed : Z)
    (w : world) :
  opt_cmd parsed = [] ->
  run parsed fs environ outcome elapsed w =
  (Raise (SystemExit 1),
   mkworld (heap w)
     (events w ++
      [StderrWrite (py "ERROR: Missing command parameter!" ++ [10%N]);
       PrintUsage])).
Proof.
  intros Hcmd. unfold run.
  assert (Hopts : opt_cmd (if dsn_nonempty (opt_dsn parsed) then parsed
                           else update_dsn fs parsed) = []).
  { destruct (dsn_nonempty (opt_dsn parsed)); [exact Hcmd|].
    rewrite update_dsn_cmd. exact Hcmd. }
  cbv zeta. rewrite Hopts.
  cbv [bind emit raise]. cbn [heap events]. rewrite <- app_assoc. reflexivity.
Qed.


Lemma update_dsn_with_cmd (fs : conf_files) (opts : options) (cmd : list pystr) :
  opt_dsn (update_dsn fs (with_cmd opts cmd)) = opt_dsn (update_dsn fs opts).
Proof.
  unfold update_dsn. cbn [update_dsn_loop].
  destruct (home_conf_file fs); [reflexivity|].
  destruct (system_conf_file fs); reflexivity.
Qed.

(** X16: the command may be given after [--] or without it: one leading
    [--] is dropped, and the run is the same. *)
Theorem run_double_hyphen (parsed : options) (fs : conf_files)
    (environ : gmap pystr pystr) (outcome : call_outcome) (elapsed : Z)
    (w : world) (c : pystr) (rest : list pystr) :
  c <> py "--" ->
  run (with_cmd parsed (py "--" :: c :: rest)) fs environ outcome elapsed w =
  run (with_cmd parsed (c :: rest)) fs environ outcome elapsed w.
Proof.
  intros Hc.
  rewrite (run_unfold_cmd (with_cmd parsed (py "--" :: c :: rest)) fs environ
             outcome elapsed w (py "--") (c :: rest) eq_refl).
  rewrite (run_unfold_cmd (with_cmd parsed (c :: rest)) fs environ
             outcome elapsed w c rest eq_refl).
  cbv zeta. cbn [with_cmd opt_dsn opt_string_max_length opt_quiet].
  destruct (decide (py "--" = py "--")) as [_|Habs]; [|contradiction Habs; reflexivity].
  destruct (decide (c = py "--")) as [Habs|_]; [contradiction|].
  destruct (dsn_nonempty (opt_dsn parsed)); [reflexivity|].
  rewrite !update_dsn_with_cmd. reflexivity.
Qed.

(** X17: where the DSN comes from: the command line (or [SENTRY_DSN]) when
    it gives a DSN that is not empty, else the file of the user, else
    that of the system, each without its trailing white space; with
    none of them the DSN stays as parsed.  The run is the one that this
    DSN alone would give. *)
Theorem run_dsn_precedence (parsed : options) (fs : conf_files)
    (environ : gmap pystr pystr) (outcome : call_outcome) (elapsed : Z)
    (w : world) :
  run parsed fs environ outcome elapsed w =
  run (with_dsn parsed
         (if dsn_nonempty (opt_dsn parsed) then opt_dsn parsed
          else match home_conf_file fs with
               | Some text => Some (rstrip text)
               | None =>
                 match system_conf_file fs with
                 | Some text => Some (rstrip text)
                 | None => opt_dsn parsed
                 end
               end))
      (mkconf_files None None) environ outcome elapsed w.
Proof.
  set (used := if dsn_nonempty (opt_dsn parsed) then opt_dsn parsed
               else match home_conf_file fs with
                    | Some text => Some (rstrip text)
                    | None =>
                      match system_conf_file fs with
                      | Some text => Some (rstrip text)
                      | None => opt_dsn parsed
                      end
                    end).
  assert (Hl : (if dsn_nonempty (opt_dsn parsed) then parsed
                else update_dsn fs parsed) = with_dsn parsed used).
  { unfold used. destruct parsed as [d max q cmd].
    cbn [with_dsn opt_dsn opt_string_max_length opt_quiet opt_cmd].
    destruct (dsn_nonempty d); [reflexivity|].
    unfold update_dsn.
    cbn [update_dsn_loop opt_dsn opt_string_max_length opt_quiet opt_cmd].
    destruct (home_conf_file fs); [reflexivity|].
    destruct (system_conf_file fs); reflexivity. }
  assert (Hr : (if dsn_nonempty (opt_dsn (with_dsn parsed used))
                then with_dsn parsed used
                else update_dsn (mkconf_files None None) (with_dsn parsed used))
               = with_dsn parsed used).
  { destruct (dsn_nonempty (opt_dsn (with_dsn parsed used))); [reflexivity|].
    destruct parsed; reflexivity. }
  unfold run. cbv zeta. rewrite Hl, Hr. reflexivity.
Qed.

(** X18: from the environment to the report: when the program reports a
    failed command, the report goes to the DSN of the command line,
    names the command without its leading [--], and holds under every
    key that is not reserved the value of the environment variable
    [CRON_SENTRY_EXTRA_] followed by that key, if there is one. *)
Theorem run_reports_the_environment (parsed : options) (fs : conf_files)
    (environ : gmap pystr pystr) (exit_status : Z) (out err : pybytes)
    (elapsed : Z) (w : world) (c0 : pystr) (rest : list pystr) (d : pystr) :
  opt_cmd parsed = c0 :: rest ->
  opt_dsn parsed = Some d ->
  d <> [] ->
  exit_status <> 0 ->
  ascii_bytes out ->
  ascii_bytes err ->
  exists c message data (sent : dict) echo,
    events (snd (run parsed fs environ (Exited exit_status out err) elapsed w)) =
      events w ++ [ClientCreated c; CaptureMessage c message data sent elapsed]
               ++ echo /\
    client_dsn c = d /\
    sent !! py "command" =
      Some (VList (if decide (c0 = py "--") then rest else c0 :: rest)) /\
    forall k : pystr,
      k ∉ reserved_keys ->
      sent !! k =
      VStr <$> (if decide (k = []) then None else environ !! (env_var_prefix ++ k)).
Proof.
  intros Hcmd Hd Hne Hst Ho He.
  rewrite (run_unfold_cmd parsed fs environ _ elapsed w c0 rest Hcmd).
  cbv zeta. rewrite Hd.
  assert (Hd' : dsn_nonempty (Some d) = true) by (destruct d; [contradiction|reflexivity]).
  rewrite Hd', Hd.
  set (r := mkCommandReporter _ _ _ _ _).
  set (w2 := mkworld _ _).
  destruct (run_call_ascii r exit_status out err w2 Ho He) as (so & se & Hcall).
  assert (Hbase : heap w2 !! extra r = Some (VStr <$> _extra_from_env environ)).
  { unfold w2, r. cbn [heap extra].
    rewrite lookup_app_l by (rewrite length_app; simpl; lia). apply lookup_snoc. }
  destruct (run_ok r _ elapsed w2 _ exit_status so se Hbase Hcall) as [Hres Hev].
  destruct (CommandReporter_run r (Exited exit_status out err) elapsed w2)
    as [[st'|e] w'] eqn:Hrun; cbn [fst snd] in *; [|discriminate].
  rewrite Hev. unfold report_events. cbn [dsn r].
  destruct (decide (exit_status ≠ 0)) as [_|Habs]; [|contradiction].
  eexists _, _, _, _, _. split; [reflexivity|]. split; [reflexivity|]. split.
  - apply lookup_union_Some_l. apply reserved_command.
  - intros k Hk. rewrite lookup_union_r by apply reserved_other, Hk.
    rewrite lookup_fmap, extra_env_lookup. reflexivity.
Qed.

(** ** The DSN of a configuration file *)

Lemma rstrip_split (s : pystr) :
  exists ws, s = rstrip s ++ ws /\ Forall (fun c => isspace c = true) ws.
Proof.
  induction s as [|c s (ws & Heq & Hws)]; [exists []; split; [reflexivity|constructor]|].
  cbn [rstrip]. destruct (rstrip s) as [|x t] eqn:Hr.
  - cbn [app] in Heq. subst ws. destruct (isspace c) eqn:Hc.
    + exists (c :: s). split; [reflexivity|]. constructor; assumption.
    + exists s. split; [reflexivity|assumption].
  - exists ws. split; [|assumption]. rewrite Heq at 1. reflexivity.
Qed.

Lemma rstrip_last (s : pystr) (c : N) :
  last (rstrip s) = Some c -> isspace c = false.
Proof.
  induction s as [|a s IH]; [discriminate|].
  cbn [rstrip]. destruct (rstrip s) as [|x t] eqn:Hr.
  - destruct (isspace a) eqn:Ha; [discriminate|]. intros [= <-]. exact Ha.
  - intros H. apply IH. rewrite <- H. reflexivity.
Qed.

(** X19: the DSN that [update_dsn] takes from a file is the text of the file
    without its trailing white space: what is dropped is white space
    only, and what is kept does not end in white space. *)
Theorem update_dsn_strips_trailing_space (fs : conf_files) (opts : options)
    (text : pystr) :
  home_conf_file fs = Some text \/
  (home_conf_file fs = None /\ system_conf_file fs = Some text) ->
  exists d ws,
    opt_dsn (update_dsn fs opts) = Some d /\
    text = d ++ ws /\
    Forall (fun c => isspace c = true) ws /\
    forall c, last d = Some c -> isspace c = false.
Proof.
  intros H. destruct (rstrip_split text) as (ws & Heq & Hws).
  exists (rstrip text), ws. split; [|split; [exact Heq|split; [exact Hws|]]].
  - unfold update_dsn. cbn [update_dsn_loop].
    destruct H as [->|[-> ->]]; reflexivity.
  - apply rstrip_last.
Qed.

(** ** More on the metadata of the environment *)

Lemma startswith_false_ne (k0 k : pystr) :
  startswith k0 env_var_prefix = false -> k0 <> env_var_prefix ++ k.
Proof. intros H ->. rewrite startswith_app in H. discriminate. Qed.

(** X20: setting a variable with the prefix and a name after it sets the
    entry of that name in the metadata, and nothing else. *)
Theorem extra_from_env_insert (env : gmap pystr pystr) (k v : pystr) :
  k <> [] ->
  _extra_from_env (<[env_var_prefix ++ k := v]> env) =
  <[k := v]> (_extra_from_env env).
Proof.
  intros Hk. apply map_eq. intros k'.
  rewrite extra_env_lookup.
  destruct (decide (k' = k)) as [->|Hne].
  - rewrite !lookup_insert_eq. destruct (decide (k = [])); [contradiction|reflexivity].
  - rewrite (lookup_insert_ne (_extra_from_env env)) by congruence.
    rewrite extra_env_lookup.
    destruct (decide (k' = [])); [reflexivity|].
    apply lookup_insert_ne. intros Heq. apply app_inv_head in Heq. congruence.
Qed.

(** X21: a variable without the prefix, or named by the prefix alone, does
    not reach the metadata: setting it changes nothing. *)
Theorem extra_from_env_ignores (env : gmap pystr pystr) (k0 v : pystr) :
  startswith k0 env_var_prefix = false \/ k0 = env_var_prefix ->
  _extra_from_env (<[k0 := v]> env) = _extra_from_env env.
Proof.
  intros H. apply map_eq. intros k.
  rewrite !extra_env_lookup.
  destruct (decide (k = [])) as [|Hk]; [reflexivity|].
  apply lookup_insert_ne. destruct H as [H| ->].
  - apply startswith_false_ne, H.
  - intros Heq. rewrite <- (app_nil_r env_var_prefix) in Heq at 1.
    apply app_inv_head in Heq. congruence.
Qed.

(** X22: the loop gives the same metadata in whatever order the items of
    the environment come. *)
Theorem extra_loop_any_order (items items' : list (pystr * pystr))
    (res : gmap pystr pystr) :
  NoDup items.*1 ->
  items ≡ₚ items' ->
  extra_loop items res = extra_loop items' res.
Proof.
  intros Hnd Hperm. apply map_eq. intros k.
  assert (Hnd' : NoDup items'.*1) by (rewrite <- Hperm; exact Hnd).
  rewrite !extra_loop_lookup by assumption.
  rewrite (list_to_map_proper items items' Hnd Hperm). reflexivity.
Qed.

(** ** Quiet *)

Lemma quiet_run_events (self : CommandReporter) (outcome : call_outcome)
    (elapsed : Z) (w : world) :
  quiet self = true ->
  exists new : list event,
    events (snd (CommandReporter_run self outcome elapsed w)) = events w ++ new /\
    List.filter is_write new = [] /\
    PrintUsage ∉ new.
Proof.
  intros Hq. rewrite run_unfold.
  destruct (fst (run_call self outcome w)) as [[[st so] se]|e].
  - rewrite Hq.
    destruct (decide (st ≠ 0)) as [Hst|Hst]; cycle 1.
    { exists []. cbn. rewrite app_nil_r. split; [reflexivity|].
      split; [reflexivity|apply not_elem_of_nil]. }
    destruct (dsn self) as [d|] eqn:Hd; cycle 1.
    { rewrite (report_fail_no_dsn _ _ _ _ _ _ Hd). exists []. cbn.
      rewrite app_nil_r. split; [reflexivity|].
      split; [reflexivity|apply not_elem_of_nil]. }
    destruct (heap w !! extra self) as [base|] eqn:Hbase.
    + rewrite (report_fail_dsn _ _ _ _ _ _ _ _ Hd Hbase). unfold reported.
      cbn [snd events]. eexists. split; [reflexivity|]. split; [reflexivity|].
      rewrite !not_elem_of_cons. repeat split; try discriminate.
      apply not_elem_of_nil.
    + rewrite (report_fail_dangling _ _ _ _ _ _ _ Hd Hbase). cbn [snd events].
      eexists. split; [reflexivity|]. split; [reflexivity|].
      rewrite !not_elem_of_cons. repeat split; try discriminate.
      apply not_elem_of_nil.
  - exists []. cbn. rewrite app_nil_r. split; [reflexivity|].
    split; [reflexivity|apply not_elem_of_nil].
Qed.

(** X23: with [--quiet] and a command the program writes nothing of its
    own: nothing to stdout, nothing to stderr, no usage, whatever the
    command does. *)
Theorem run_quiet_writes_nothing (parsed : options) (fs : conf_files)
    (environ : gmap pystr pystr) (outcome : call_outcome) (elapsed : Z)
    (w : world) :
  opt_quiet parsed = true ->
  opt_cmd parsed <> [] ->
  exists new : list event,
    events (snd (run parsed fs environ outcome elapsed w)) = events w ++ new /\
    List.filter is_write new = [] /\
    PrintUsage ∉ new.
Proof.
  intros Hq Hcmd.
  destruct (opt_cmd parsed) as [|c0 rest] eqn:Hc; [contradiction|].
  rewrite (run_unfold_cmd parsed fs environ outcome elapsed w c0 rest Hc).
  cbv zeta. rewrite Hq.
  match goal with
  | |- context [CommandReporter_run ?r ?o ?el ?w2] =>
    destruct (quiet_run_events r o el w2 eq_refl) as (new & Hev & Hw & Hu);
    destruct (CommandReporter_run r o el w2) as [[st|e] w']
  end; cbn [snd events] in *; exists new; auto.
Qed.

End Runtime.

(** ** The theorems at sample data *)

(** A store cut inside a code point: the tail does not decode. *)
Example get_last_lines_cut_raises :
  fst (_get_last_lines (mkCommandReporter None [] 5 true 0)
         (written ("a" :: "b" :: "c" :: [xe2; x82; xac])%byte)) =
  Raise UnicodeDecodeError.
Proof. reflexivity. Qed.

(** With a limit of 1 the text returned for a store of one byte has 3
    code points: the bound of the claim C2 does not hold there. *)
Lemma get_last_lines_limit_1_too_long :
  0 < string_max_length limit_1_reporter /\
  string_max_length limit_1_reporter <= len (content (written ["a"%byte])) /\
  fst (_get_last_lines limit_1_reporter (written ["a"%byte])) = Ok (py "...") /\
  ~ len (py "...") <= string_max_length limit_1_reporter.
Proof.
  split; [reflexivity|]. split; [discriminate|]. split; [reflexivity|].
  intros H. apply H. reflexivity.
Qed.

Lemma get_last_lines_bounded_witness :
  string_max_length sample_reporter <= len (content (written (replicate 12 "a"%byte))) /\
  fst (_get_last_lines sample_reporter (written (replicate 12 "a"%byte))) =
    Ok (py "...aaaaaaa") /\
  startswith (py "...aaaaaaa") (py "...") = true /\
  len (py "...aaaaaaa") <= string_max_length sample_reporter.
Proof.
  assert (Hge : string_max_length sample_reporter
                <= len (content (written (replicate 12 "a"%byte))))
    by discriminate.
  split; [exact Hge|].
  destruct (proj2 (get_last_lines_bounded sample_reporter
                     (written (replicate 12 "a"%byte))) Hge) as [Heq Hbound].
  split; [exact Heq|].
  destruct (Hbound (py "...aaaaaaa") Heq) as [Hpre Hlen].
  split; [exact Hpre|]. apply Hlen. discriminate.
Defined.

Lemma get_last_lines_small_limit_witness :
  (1 <= string_max_length limit_2_reporter <= 3) /\
  string_max_length limit_2_reporter <= len (content (written (replicate 5 "h"%byte))) /\
  tail_bytes (string_max_length limit_2_reporter)
    (content (written (replicate 5 "h"%byte))) = [] /\
  fst (_get_last_lines limit_2_reporter (written (replicate 5 "h"%byte))) =
    Ok (py "...") /\
  (string_max_length limit_2_reporter < 3 ->
   string_max_length limit_2_reporter < len (py "...")).
Proof.
  assert (H1 : 1 <= string_max_length limit_2_reporter <= 3)
    by (split; discriminate).
  assert (H2 : string_max_length limit_2_reporter
               <= len (content (written (replicate 5 "h"%byte))))
    by discriminate.
  split; [exact H1|]. split; [exact H2|].
  exact (get_last_lines_small_limit limit_2_reporter
           (written (replicate 5 "h"%byte)) H1 H2).
Defined.

(** A reporter whose DSN is the empty str, a command that exits with 1:
    a client is built and the report goes out, against the claim C1. *)
Lemma report_sent_with_empty_dsn :
  dsn_nonempty (dsn empty_dsn_reporter) = false /\
  fst (CommandReporter_run repr_plain empty_dsn_reporter (Exited 1 [] []) 7
         sample_world) = Ok 1 /\
  existsb is_client
    (events (snd (CommandReporter_run repr_plain empty_dsn_reporter
                    (Exited 1 [] []) 7 sample_world))) = true /\
  existsb is_capture
    (events (snd (CommandReporter_run repr_plain empty_dsn_reporter
                    (Exited 1 [] []) 7 sample_world))) = true.
Proof. vm_compute. repeat split. Qed.

Lemma report_sent_iff_dsn_given_witness :
  is_Some (heap sample_world !! extra sample_reporter) /\
  exists new : list event,
    events (snd (CommandReporter_run repr_plain sample_reporter
                   (Exited 1 [] []) 7 sample_world)) = events sample_world ++ new /\
    (existsb is_capture new = true <->
     dsn sample_reporter <> None /\
     exists exit_status : Z,
       fst (CommandReporter_run repr_plain sample_reporter
              (Exited 1 [] []) 7 sample_world) = Ok exit_status /\
       exit_status <> 0) /\
    (existsb is_capture new = false -> existsb is_client new = false).
Proof.
  assert (H : is_Some (heap sample_world !! extra sample_reporter))
    by (eexists; reflexivity).
  split; [exact H|].
  exact (report_sent_iff_dsn_given repr_plain sample_reporter
           (Exited 1 [] []) 7 sample_world H).
Defined.

Lemma command_not_found_127_witness :
  is_Some (heap sample_world !! extra sample_reporter) /\
  fst (run_call repr_plain sample_reporter
         (Raised (CommandNotFoundError no_such_file)) sample_world) =
    Ok (127, [], str_OSError repr_plain no_such_file) /\
  str_OSError repr_plain no_such_file <> [] /\
  fst (CommandReporter_run repr_plain sample_reporter
         (Raised (CommandNotFoundError no_such_file)) 7 sample_world) = Ok 127 /\
  forall (opts : options) (fs : conf_files) (environ : gmap pystr pystr)
         (w' : world),
    opt_cmd opts <> [] ->
    fst (run repr_plain isspace_ascii opts fs environ
           (Raised (CommandNotFoundError no_such_file)) 7 w') =
      Raise (SystemExit 127).
Proof.
  assert (H : is_Some (heap sample_world !! extra sample_reporter))
    by (eexists; reflexivity).
  split; [exact H|].
  exact (command_not_found_127 repr_plain isspace_ascii sample_reporter
           no_such_file 7 sample_world H).
Defined.

Example str_no_such_file :
  str_OSError repr_plain no_such_file =
  py "[Errno 2] No such file or directory: 'nope'".
Proof. reflexivity. Qed.

Lemma report_extra_reserved_keys_win_witness :
  dsn sample_reporter = Some (py "http://key@sentry.example/1") /\
  heap sample_world !! extra sample_reporter
    = Some {[ py "host" := VStr (py "db1") ]} /\
  exists c message data (sent : dict),
    events (snd (report_fail repr_plain sample_reporter 1 (py "out") (py "err") 7
                   sample_world)) =
      events sample_world ++ [ClientCreated c; CaptureMessage c message data sent 7] /\
    sent !! py "command" = Some (VList (command sample_reporter)) /\
    sent !! py "exit_status" = Some (VInt 1) /\
    sent !! py "last_lines_stdout" = Some (VStr (py "out")) /\
    sent !! py "last_lines_stderr" = Some (VStr (py "err")) /\
    forall k : pystr,
      k ∉ reserved_keys ->
      sent !! k = ({[ py "host" := VStr (py "db1") ]} : dict) !! k.
Proof.
  split; [reflexivity|]. split; [reflexivity|].
  exact (report_extra_reserved_keys_win repr_plain sample_reporter 1 (py "out")
           (py "err") 7 sample_world (py "http://key@sentry.example/1")
           {[ py "host" := VStr (py "db1") ]} eq_refl eq_refl).
Defined.

Lemma five_thousand_a_witness :
  string_max_length sample_reporter = 10 /\
  dsn sample_reporter = Some (py "http://key@sentry.example/1") /\
  heap sample_world !! extra sample_reporter
    = Some {[ py "host" := VStr (py "db1") ]} /\
  fst (CommandReporter_run repr_plain sample_reporter
         (Exited 1 (replicate 5000 "a"%byte) []) 7 sample_world) = Ok 1.
Proof.
  split; [reflexivity|]. split; [reflexivity|]. split; [reflexivity|].
  exact (proj1 (proj2 (five_thousand_a repr_plain sample_reporter
                         (py "http://key@sentry.example/1")
                         {[ py "host" := VStr (py "db1") ]} 7 sample_world
                         eq_refl eq_refl eq_refl))).
Defined.

Lemma echo_unless_quiet_witness :
  is_Some (heap sample_world !! extra sample_reporter) /\
  exists new : list event,
    events (snd (CommandReporter_run repr_plain sample_reporter
                   (Exited 0 ["o"; "k"]%byte []) 7 sample_world)) =
      events sample_world ++ new /\
    (quiet sample_reporter = true -> List.filter is_write new = []) /\
    (quiet sample_reporter = false ->
     match fst (run_call repr_plain sample_reporter
                  (Exited 0 ["o"; "k"]%byte []) sample_world) with
     | Ok (exit_status, so, se) =>
       fst (CommandReporter_run repr_plain sample_reporter
              (Exited 0 ["o"; "k"]%byte []) 7 sample_world) = Ok exit_status /\
       List.filter is_write new = [StdoutWrite so; StderrWrite se]
     | Raise e =>
       fst (CommandReporter_run repr_plain sample_reporter
              (Exited 0 ["o"; "k"]%byte []) 7 sample_world) = Raise e /\ new = []
     end).
Proof.
  assert (H : is_Some (heap sample_world !! extra sample_reporter))
    by (eexists; reflexivity).
  split; [exact H|].
  exact (echo_unless_quiet repr_plain sample_reporter
           (Exited 0 ["o"; "k"]%byte []) 7 sample_world H).
Defined.

(** The run of the sample reporter on a failing command, in full. *)
Example sample_run_events :
  events (snd (CommandReporter_run repr_plain sample_reporter
                 (Exited 3 ["o"; "k"]%byte ["n"; "o"]%byte) 7 sample_world)) =
  [ClientCreated (mkClient (py "http://key@sentry.example/1") 10);
   CaptureMessage (mkClient (py "http://key@sentry.example/1") 10)
     (py "Command " ++ [34%N] ++ py "['backup', '--all']" ++ [34%N] ++ py " failed")
     {[ py "logger" := VStr (py "cron") ]}
     (<[py "command" := VList [py "backup"; py "--all"]]>
      (<[py "exit_status" := VInt 3]>
      (<[py "last_lines_stdout" := VStr (py "ok")]>
      (<[py "last_lines_stderr" := VStr (py "no")]>
      {[ py "host" := VStr (py "db1") ]}))))
     7;
   StdoutWrite (py "ok");
   StderrWrite (py "no")].
Proof. vm_compute. reflexivity. Qed.

Example extra_from_env_sample :
  _extra_from_env
    (<[py "CRON_SENTRY_EXTRA_host" := py "db1"]>
     (<[py "CRON_SENTRY_EXTRA_" := py "lost"]>
     (<[py "HOME" := py "/root"]> ∅))) =
  {[ py "host" := py "db1" ]}.
Proof. vm_compute. reflexivity. Qed.

(** The same from the command line: [--dsn] with an empty argument and
    no configuration file. *)
Example run_with_empty_dsn :
  fst (run repr_plain isspace_ascii
         (mkoptions (Some []) DEFAULT_STRING_MAX_LENGTH false [py "--"; py "false"])
         (mkconf_files None None) ∅ (Exited 1 [] []) 7 (mkworld [] [])) =
    Raise (SystemExit 1) /\
  existsb is_capture
    (events (snd (run repr_plain isspace_ascii
         (mkoptions (Some []) DEFAULT_STRING_MAX_LENGTH false [py "--"; py "false"])
         (mkconf_files None None) ∅ (Exited 1 [] []) 7 (mkworld [] [])))) = true.
Proof. vm_compute. split; reflexivity. Qed.

Example update_dsn_sample :
  opt_dsn (update_dsn isspace_ascii
             (mkconf_files None (Some (py "http://key@sentry.example/1" ++ [10%N])))
             (mkoptions None DEFAULT_STRING_MAX_LENGTH false [py "true"])) =
  Some (py "http://key@sentry.example/1").
Proof. reflexivity. Qed.

(** ** More samples *)


Lemma ascii_abcdef : ascii_bytes ["a"; "b"; "c"; "d"; "e"; "f"]%byte.
Proof. unfold ascii_bytes. repeat (constructor; [reflexivity|]). constructor. Defined.

Lemma ascii_ten : ascii_bytes (replicate 10 "x"%byte).
Proof. unfold ascii_bytes. repeat (constructor; [reflexivity|]). constructor. Defined.

Lemma ascii_nil : ascii_bytes [].
Proof. constructor. Defined.

Lemma get_last_lines_ascii_witness :
  ascii_bytes (content (written ["a"; "b"; "c"; "d"; "e"; "f"]%byte)) /\
  fst (_get_last_lines sample_reporter (written ["a"; "b"; "c"; "d"; "e"; "f"]%byte))
  = Ok (py "abcdef").
Proof.
  split; [exact ascii_abcdef|].
  apply (get_last_lines_ascii sample_reporter
           (written ["a"; "b"; "c"; "d"; "e"; "f"]%byte) ascii_abcdef).
  reflexivity.
Defined.

Lemma get_last_lines_exact_fit_is_cut_witness :
  ascii_bytes (content (written (replicate 10 "x"%byte))) /\
  len (content (written (replicate 10 "x"%byte))) = string_max_length sample_reporter /\
  fst (_get_last_lines sample_reporter (written (replicate 10 "x"%byte))) =
    Ok (py "..." ++ ascii_text (drop 3 (content (written (replicate 10 "x"%byte))))).
Proof.
  split; [exact ascii_ten|]. split; [reflexivity|].
  exact (get_last_lines_exact_fit_is_cut sample_reporter
           (written (replicate 10 "x"%byte)) ascii_ten eq_refl).
Defined.


(** Thirteen bytes, the last three of them one code point, and a limit
    of 10: the cut is after the sixth byte. *)
Lemma get_last_lines_tail_is_suffix_witness :
  string_max_length sample_reporter
    <= len (content (written (replicate 10 "x"%byte ++ [xe2; x82; xac]%byte))) /\
  decode (content (written (replicate 10 "x"%byte ++ [xe2; x82; xac]%byte))) =
    Ok (py "xxxxxx" ++ (py "xxxx" ++ [0x20AC%N])) /\
  fst (_get_last_lines sample_reporter
         (written (replicate 10 "x"%byte ++ [xe2; x82; xac]%byte))) =
    Ok (py "..." ++ (py "xxxx" ++ [0x20AC%N])).
Proof.
  assert (H : string_max_length sample_reporter
              <= len (content (written (replicate 10 "x"%byte ++ [xe2; x82; xac]%byte))))
    by discriminate.
  split; [exact H|].
  exact (get_last_lines_tail_is_suffix sample_reporter
           (written (replicate 10 "x"%byte ++ [xe2; x82; xac]%byte))
           (py "xxxxxx") (py "xxxx" ++ [0x20AC%N]) H eq_refl eq_refl).
Defined.

Lemma run_reraises_other_exceptions_witness :
  (forall exc, OtherError permission_denied <> CommandNotFoundError exc) /\
  CommandReporter_run repr_plain sample_reporter
    (Raised (OtherError permission_denied)) 7 sample_world =
  (Raise (OtherError permission_denied), sample_world).
Proof.
  assert (H : forall exc, OtherError permission_denied <> CommandNotFoundError exc)
    by discriminate.
  split; [exact H|].
  exact (run_reraises_other_exceptions repr_plain sample_reporter
           (OtherError permission_denied) 7 sample_world H).
Defined.

Lemma run_undecodable_output_not_reported_witness :
  (exists so, fst (_get_last_lines sample_reporter (written ["o"; "k"]%byte)) = Ok so) /\
  fst (_get_last_lines sample_reporter (written [xff]%byte)) =
    Raise UnicodeDecodeError /\
  CommandReporter_run repr_plain sample_reporter
    (Exited 1 ["o"; "k"]%byte [xff]%byte) 7 sample_world =
  (Raise UnicodeDecodeError, sample_world).
Proof.
  assert (H1 : exists so,
             fst (_get_last_lines sample_reporter (written ["o"; "k"]%byte)) = Ok so)
    by (eexists; reflexivity).
  assert (H2 : fst (_get_last_lines sample_reporter (written [xff]%byte)) =
               Raise UnicodeDecodeError) by reflexivity.
  split; [exact H1|]. split; [exact H2|].
  exact (run_undecodable_output_not_reported repr_plain sample_reporter 1
           ["o"; "k"]%byte [xff]%byte 7 sample_world UnicodeDecodeError
           (or_intror (conj H1 H2))).
Defined.

Lemma run_success_only_echoes_witness :
  fst (_get_last_lines sample_reporter (written ["o"; "k"]%byte)) = Ok (py "ok") /\
  fst (_get_last_lines sample_reporter (written [])) = Ok [] /\
  CommandReporter_run repr_plain sample_reporter (Exited 0 ["o"; "k"]%byte []) 7
    sample_world =
  (Ok 0, mkworld (heap sample_world)
           (events sample_world ++ echo_events sample_reporter (py "ok") [])).
Proof.
  split; [reflexivity|]. split; [reflexivity|].
  exact (run_success_only_echoes repr_plain sample_reporter ["o"; "k"]%byte []
           (py "ok") [] 7 sample_world eq_refl eq_refl).
Defined.

Lemma command_not_found_is_reported_witness :
  dsn sample_reporter = Some (py "http://key@sentry.example/1") /\
  heap sample_world !! extra sample_reporter
    = Some {[ py "host" := VStr (py "db1") ]} /\
  exists sent : dict,
    events (snd (CommandReporter_run repr_plain sample_reporter
                   (Raised (CommandNotFoundError no_such_file)) 7 sample_world)) =
      events sample_world ++
      [ClientCreated (mkClient (py "http://key@sentry.example/1")
                        (string_max_length sample_reporter));
       CaptureMessage (mkClient (py "http://key@sentry.example/1")
                         (string_max_length sample_reporter))
         (fail_message repr_plain sample_reporter)
         {[ py "logger" := VStr (py "cron") ]} sent 7] ++
      echo_events sample_reporter [] (str_OSError repr_plain no_such_file) /\
    sent !! py "exit_status" = Some (VInt 127) /\
    sent !! py "last_lines_stdout" = Some (VStr []) /\
    sent !! py "last_lines_stderr" = Some (VStr (str_OSError repr_plain no_such_file)).
Proof.
  split; [reflexivity|]. split; [reflexivity|].
  exact (command_not_found_is_reported repr_plain sample_reporter no_such_file 7
           sample_world (py "http://key@sentry.example/1")
           {[ py "host" := VStr (py "db1") ]} eq_refl eq_refl).
Defined.

Lemma init_keeps_the_callers_dict_witness :
  heap sample_world !! 0%nat = Some {[ py "host" := VStr (py "db1") ]} /\
  exists (r : CommandReporter) (w1 : world),
    CommandReporter_init [py "backup"] (Some (py "dsn")) 10 false (Some 0%nat)
      sample_world = (Ok r, w1) /\
    extra r = 0%nat /\
    forall (other : dict) (exit_status : Z) (so se : pystr) (elapsed : Z),
      exists c message data,
        events (snd (report_fail repr_plain r exit_status so se elapsed
                       (snd (dict_update 0 other w1)))) =
        events sample_world ++
        [ClientCreated c;
         CaptureMessage c message data
           (reserved r exit_status so se
              ∪ (other ∪ {[ py "host" := VStr (py "db1") ]})) elapsed].
Proof.
  split; [reflexivity|].
  exact (init_keeps_the_callers_dict repr_plain [py "backup"] (py "dsn") 10 false
           0%nat {[ py "host" := VStr (py "db1") ]} sample_world eq_refl).
Defined.

Lemma run_without_command_witness :
  opt_cmd (mkoptions None 10 true []) = [] /\
  run repr_plain isspace_ascii (mkoptions None 10 true []) sample_conf_files
    sample_environ (Exited 0 [] []) 7 sample_world =
  (Raise (SystemExit 1),
   mkworld (heap sample_world)
     (events sample_world ++
      [StderrWrite (py "ERROR: Missing command parameter!" ++ [10%N]);
       PrintUsage])).
Proof.
  split; [reflexivity|].
  exact (run_without_command repr_plain isspace_ascii (mkoptions None 10 true [])
           sample_conf_files sample_environ (Exited 0 [] []) 7 sample_world
           eq_refl).
Defined.


Lemma run_double_hyphen_witness :
  py "backup" <> py "--" /\
  run repr_plain isspace_ascii
    (with_cmd sample_options (py "--" :: py "backup" :: [py "--all"]))
    sample_conf_files sample_environ (Exited 3 [] []) 7 sample_world =
  run repr_plain isspace_ascii
    (with_cmd sample_options (py "backup" :: [py "--all"]))
    sample_conf_files sample_environ (Exited 3 [] []) 7 sample_world.
Proof.
  assert (H : py "backup" <> py "--") by discriminate.
  split; [exact H|].
  exact (run_double_hyphen repr_plain isspace_ascii sample_options
           sample_conf_files sample_environ (Exited 3 [] []) 7 sample_world
           (py "backup") [py "--all"] H).
Defined.

Lemma run_reports_the_environment_witness :
  opt_cmd sample_options = py "--" :: [py "backup"; py "--all"] /\
  opt_dsn sample_options = Some (py "http://key@sentry.example/1") /\
  py "http://key@sentry.example/1" <> [] /\
  3 <> 0 /\
  exists c message data (sent : dict) echo,
    events (snd (run repr_plain isspace_ascii sample_options sample_conf_files
                   sample_environ
                   (Exited 3 ["a"; "b"; "c"; "d"; "e"; "f"]%byte []) 7
                   sample_world)) =
      events sample_world
        ++ [ClientCreated c; CaptureMessage c message data sent 7] ++ echo /\
    client_dsn c = py "http://key@sentry.example/1" /\
    sent !! py "command" =
      Some (VList (if decide (py "--" = py "--") then [py "backup"; py "--all"]
                   else py "--" :: [py "backup"; py "--all"])) /\
    forall k : pystr,
      k ∉ reserved_keys ->
      sent !! k =
      VStr <$> (if decide (k = []) then None
                else sample_environ !! (env_var_prefix ++ k)).
Proof.
  assert (H1 : py "http://key@sentry.example/1" <> []) by discriminate.
  assert (H2 : 3 <> 0) by discriminate.
  split; [reflexivity|]. split; [reflexivity|]. split; [exact H1|].
  split; [exact H2|].
  exact (run_reports_the_environment repr_plain isspace_ascii sample_options
           sample_conf_files sample_environ 3
           ["a"; "b"; "c"; "d"; "e"; "f"]%byte [] 7 sample_world (py "--")
           [py "backup"; py "--all"] (py "http://key@sentry.example/1")
           eq_refl eq_refl H1 H2 ascii_abcdef ascii_nil).
Defined.

Lemma update_dsn_strips_trailing_space_witness :
  (home_conf_file sample_conf_files = None /\
   system_conf_file sample_conf_files
     = Some (py "http://key@sentry.example/2" ++ [10%N])) /\
  exists d ws,
    opt_dsn (update_dsn isspace_ascii sample_conf_files sample_options) = Some d /\
    py "http://key@sentry.example/2" ++ [10%N] = d ++ ws /\
    Forall (fun c => isspace_ascii c = true) ws /\
    forall c, last d = Some c -> isspace_ascii c = false.
Proof.
  assert (H : home_conf_file sample_conf_files = None /\
              system_conf_file sample_conf_files
                = Some (py "http://key@sentry.example/2" ++ [10%N]))
    by (split; reflexivity).
  split; [exact H|].
  exact (update_dsn_strips_trailing_space isspace_ascii sample_conf_files
           sample_options (py "http://key@sentry.example/2" ++ [10%N])
           (or_intror H)).
Defined.

Lemma extra_from_env_insert_witness :
  py "host" <> [] /\
  _extra_from_env (<[env_var_prefix ++ py "host" := py "db2"]> sample_environ) =
  <[py "host" := py "db2"]> (_extra_from_env sample_environ).
Proof.
  assert (H : py "host" <> []) by discriminate.
  split; [exact H|].
  exact (extra_from_env_insert sample_environ (py "host") (py "db2") H).
Defined.

Lemma extra_from_env_ignores_witness :
  (startswith (py "PATH") env_var_prefix = false \/ py "PATH" = env_var_prefix) /\
  _extra_from_env (<[py "PATH" := py "/bin"]> sample_environ) =
  _extra_from_env sample_environ.
Proof.
  assert (H : startswith (py "PATH") env_var_prefix = false
              \/ py "PATH" = env_var_prefix) by (left; reflexivity).
  split; [exact H|].
  exact (extra_from_env_ignores sample_environ (py "PATH") (py "/bin") H).
Defined.

Lemma extra_loop_any_order_witness :
  NoDup [(py "CRON_SENTRY_EXTRA_a", py "1"); (py "HOME", py "/root")].*1 /\
  [(py "CRON_SENTRY_EXTRA_a", py "1"); (py "HOME", py "/root")]
    ≡ₚ [(py "HOME", py "/root"); (py "CRON_SENTRY_EXTRA_a", py "1")] /\
  extra_loop [(py "CRON_SENTRY_EXTRA_a", py "1"); (py "HOME", py "/root")] ∅ =
  extra_loop [(py "HOME", py "/root"); (py "CRON_SENTRY_EXTRA_a", py "1")] ∅.
Proof.
  assert (H1 : NoDup [(py "CRON_SENTRY_EXTRA_a", py "1"); (py "HOME", py "/root")].*1).
  { apply NoDup_cons. split; [|apply NoDup_singleton].
    intros Hin. apply list_elem_of_singleton in Hin. discriminate. }
  assert (H2 : [(py "CRON_SENTRY_EXTRA_a", py "1"); (py "HOME", py "/root")]
                 ≡ₚ [(py "HOME", py "/root"); (py "CRON_SENTRY_EXTRA_a", py "1")])
    by apply perm_swap.
  split; [exact H1|]. split; [exact H2|].
  exact (extra_loop_any_order _ _ ∅ H1 H2).
Defined.

Lemma run_quiet_writes_nothing_witness :
  opt_quiet (mkoptions (Some (py "dsn")) 10 true [py "backup"]) = true /\
  opt_cmd (mkoptions (Some (py "dsn")) 10 true [py "backup"]) <> [] /\
  exists new : list event,
    events (snd (run repr_plain isspace_ascii
                   (mkoptions (Some (py "dsn")) 10 true [py "backup"])
                   sample_conf_files sample_environ
                   (Exited 3 ["o"; "k"]%byte []) 7 sample_world)) =
      events sample_world ++ new /\
    List.filter is_write new = [] /\
    PrintUsage ∉ new.
Proof.
  assert (H : opt_cmd (mkoptions (Some (py "dsn")) 10 true [py "backup"]) <> [])
    by discriminate.
  split; [reflexivity|]. split; [exact H|].
  exact (run_quiet_writes_nothing repr_plain isspace_ascii
           (mkoptions (Some (py "dsn")) 10 true [py "backup"])
           sample_conf_files sample_environ (Exited 3 ["o"; "k"]%byte []) 7
           sample_world eq_refl H).
Defined.
